(** * A shallow embedding of [backend/server/server.py]

    The HTTP handlers of the research server are translated function by
    function.  Python values are modelled by the Rocq data they denote
    (strings, integers, dictionaries as finite maps); the process state that
    the handlers read and write (the environment [os.environ], the
    filesystem, the clock, the mounted routes, the queue of background
    tasks) is threaded explicitly through a state-and-exception monad.

    Code that the server imports from other modules of the repository
    ([sanitize_filename], [run_agent], [write_md_to_word], [write_md_to_pdf],
    [handle_file_upload], the [Tone] enumeration) is not part of
    [server.py]; the handlers are parametrised over it by the class
    [Collaborators]. *)

From Stdlib Require Import ZArith QArith Ascii String.
From Stdlib Require Import DecimalString DecimalZ DecimalPos.
From stdpp Require Import gmap strings list fin_maps.

#[local] Open Scope string_scope.
#[local] Open Scope list_scope.
#[local] Open Scope Z_scope.

Set Warnings "-register-all".

(** ** Python primitives used by the handlers *)

Module Py.

(** [str(n)] for an [int]: the decimal numeral, ["-"] in front of a negative
    one, no leading zero. *)
Definition str_int (z : Z) : string := NilZero.string_of_int (Z.to_int z).

(** [int(x)] for a [float]: truncation toward zero.  A finite float is a
    rational number, which is all [int] looks at. *)
Definition int_of_float (x : Q) : Z := Z.quot (Qnum x) (Zpos (Qden x)).

(** [s.startswith("/")] and [s.endswith("/")]. *)
Definition startswith_sep (s : string) : bool :=
  match s with
  | String c _ => bool_decide (c = "/"%char)
  | EmptyString => false
  end.

Fixpoint endswith_sep (s : string) : bool :=
  match s with
  | EmptyString => false
  | String c EmptyString => bool_decide (c = "/"%char)
  | String _ s' => endswith_sep s'
  end.

(** [os.path.join(a, b)] of [posixpath]: an absolute [b] replaces [a]; an
    empty [a], or one that ends with the separator, is extended by [b]
    alone; otherwise the separator is put between them. *)
Definition os_path_join (a b : string) : string :=
  if startswith_sep b then b
  else if bool_decide (a = "") || endswith_sep a then a +:+ b
  else a +:+ "/" +:+ b.

(** The truth value of a [str | None] in a condition: [None] and the empty
    string are false. *)
Definition truthy_str (o : option string) : bool :=
  match o with
  | Some s => negb (bool_decide (s = ""))
  | None => false
  end.

(** The values a JSON body can put in the [deep_research_config] dictionary,
    with [str] on them.  A value that is neither an integer, a string, a
    boolean nor [null] is carried with the text [str] gives for it. *)
Inductive value :=
  | VInt (z : Z)
  | VStr (s : string)
  | VBool (b : bool)
  | VNone
  | VOther (rendering : string).

Definition str (v : value) : string :=
  match v with
  | VInt z => str_int z
  | VStr s => s
  | VBool true => "True"
  | VBool false => "False"
  | VNone => "None"
  | VOther r => r
  end.

(** [d.get(key, default)]. *)
Definition dict_get (d : gmap string value) (key : string) (default : value) : value :=
  match d !! key with
  | Some v => v
  | None => default
  end.

(** The truth value of a [dict | None]: [None] and the empty dictionary are
    false. *)
Definition truthy_dict (o : option (gmap string value)) : bool :=
  match o with
  | Some d => negb (bool_decide (d = ∅))
  | None => false
  end.

End Py.

(** ** JSON bodies of the responses *)

Inductive json :=
  | JNull
  | JNum (q : Q)
  | JStr (s : string)
  | JList (items : list json)
  | JObj (fields : list (string * json)).

(** [d[key]] on a response body. *)
Definition jget (key : string) (j : json) : option json :=
  match j with
  | JObj fields => (λ found, found.2.2) <$> list_find (λ kv, kv.1 = key) fields
  | _ => None
  end.

(** ** The filesystem

    A tree of directories and regular files (no symbolic links, no
    permissions, no limit on name lengths).  A location is the list of names
    that leads from the root of the tree to a node. *)

Module FS.

Inductive node :=
  | File (content : string)
  | Dir (entries : gmap string node).

Definition location := list string.

Fixpoint lookup_node (l : location) (t : node) : option node :=
  match l with
  | [] => Some t
  | n :: l' =>
      match t with
      | Dir es => es !! n ≫= lookup_node l'
      | File _ => None
      end
  end.

Definition is_dir (t : node) (l : location) : bool :=
  match lookup_node l t with
  | Some (Dir _) => true
  | _ => false
  end.

Definition is_file (t : node) (l : location) : bool :=
  match lookup_node l t with
  | Some (File _) => true
  | _ => false
  end.

(** What there is at a location: nothing, a regular file with its content,
    or a directory. *)
Inductive kind :=
  | Missing
  | RegularFile (content : string)
  | Directory.

Definition kind_at (t : node) (l : location) : kind :=
  match lookup_node l t with
  | None => Missing
  | Some (File content) => RegularFile content
  | Some (Dir _) => Directory
  end.

(** A node without entries: a regular file or an empty directory. *)
Definition leaf (x : node) : Prop :=
  ∀ (n : string) (l : location), lookup_node (n :: l) x = None.

(** [grows t t']: every location holds in [t'] what it held in [t], or is
    a directory of [t'] where [t] had nothing. *)
Definition grows (t t' : node) : Prop :=
  ∀ l : location,
    kind_at t' l = kind_at t l ∨ (kind_at t l = Missing ∧ kind_at t' l = Directory).

(** [put_node l x t] puts [x] at [l] when the parent of [l] is a directory
    of [t], and leaves [t] as it is otherwise. *)
Fixpoint put_node (l : location) (x : node) (t : node) : node :=
  match l with
  | [] => x
  | n :: l' =>
      match t with
      | Dir es =>
          match l' with
          | [] => Dir (<[n := x]> es)
          | _ :: _ =>
              match es !! n with
              | Some sub => Dir (<[n := put_node l' x sub]> es)
              | None => t
              end
          end
      | File _ => t
      end
  end.

(** [path.split("/")]: the components of a path, empty ones included. *)
Fixpoint split_sep (s : string) : list string :=
  match s with
  | EmptyString => [""]
  | String c s' =>
      if bool_decide (c = "/"%char) then "" :: split_sep s'
      else match split_sep s' with
           | x :: xs => String c x :: xs
           | [] => [String c ""]
           end
  end.

Fixpoint contains (c : ascii) (s : string) : bool :=
  match s with
  | EmptyString => false
  | String c' s' => bool_decide (c' = c) || contains c s'
  end.

(** A component that names no entry: the empty one (two separators in a
    row, or one at an end of the path), ["."] and [".."]. *)
Definition special (c : string) : bool :=
  bool_decide (c = "") || bool_decide (c = ".") || bool_decide (c = "..").

(** A name that an entry of a directory can have. *)
Definition valid_name (c : string) : bool :=
  negb (special c) && negb (contains "/"%char c) && negb (contains "000"%char c).

(** Where one component leads from a directory. *)
Definition step (l : location) (c : string) : location :=
  if bool_decide (c = "..") then removelast l
  else if special c then l
  else l ++ [c].

(** Path resolution as the kernel does it: every component is looked up in
    a directory, so all but the last must lead to directories that exist.
    The location of the last one is returned whether or not it exists. *)
Fixpoint walk (t : node) (l : location) (cs : list string) : option location :=
  match cs with
  | [] => Some l
  | c :: cs' => if is_dir t l then walk t (step l c) cs' else None
  end.

(** [os.makedirs(path, exist_ok=True)] on the components of [path]: each
    named component is entered when it is a directory, created (empty) when
    it is missing, and the call fails when it is a regular file. *)
Fixpoint mkdirs (t : node) (l : location) (cs : list string) : option node :=
  match cs with
  | [] => Some t
  | c :: cs' =>
      if negb (is_dir t l) then None
      else if special c then mkdirs t (step l c) cs'
      else match lookup_node (l ++ [c]) t with
           | None => mkdirs (put_node (l ++ [c]) (Dir ∅) t) (l ++ [c]) cs'
           | Some (Dir _) => mkdirs t (l ++ [c]) cs'
           | Some (File _) => None
           end
  end.

(** The locations a path passes through, one per component. *)
Fixpoint visited (l : location) (cs : list string) : list location :=
  match cs with
  | [] => []
  | c :: cs' => step l c :: visited (step l c) cs'
  end.

(** [open(path, "wb")] followed by a write of [content]: the parent must be
    a directory and the target must not be one. *)
Definition write_node (t : node) (l : location) (content : string) : option node :=
  match l with
  | [] => None
  | _ :: _ =>
      if is_dir t (removelast l) && negb (is_dir t l)
      then Some (put_node l (File content) t)
      else None
  end.

End FS.

(** ** The state of the process *)

(** What the operating system keeps for the process: [os.environ], the
    filesystem and the working directory (the server never changes it). *)
Record OS := {
  environ : gmap string string;
  fs : FS.node;
  cwd : FS.location;
}.

Inductive exn :=
  | KeyError (key : string)
  | ValueError (detail : string)
  | OSError (path : string)
  | RuntimeError (detail : string).

Inductive outcome (A : Type) :=
  | Return (a : A)
  | Raise (e : exn).
Arguments Return {A} a.
Arguments Raise {A} e.

Module Os.

(** A path that the system calls refuse before they look at the filesystem:
    the empty one, and one with an embedded NUL. *)
Definition unusable (path : string) : bool :=
  bool_decide (path = "") || FS.contains "000"%char path.

Definition origin (o : OS) (path : string) : FS.location :=
  if Py.startswith_sep path then [] else cwd o.

Definition locate (o : OS) (path : string) : option FS.location :=
  if unusable path then None
  else FS.walk (fs o) (origin o path) (FS.split_sep path).

Definition node_at (o : OS) (path : string) : option FS.node :=
  locate o path ≫= λ l, FS.lookup_node l (fs o).

(** [os.path.exists], [os.path.isdir]. *)
Definition path_exists (o : OS) (path : string) : bool :=
  match node_at o path with
  | Some _ => true
  | None => false
  end.

Definition path_isdir (o : OS) (path : string) : bool :=
  match node_at o path with
  | Some (FS.Dir _) => true
  | _ => false
  end.

(** [os.listdir(path)]: the names of the entries, each once, in no
    particular order. *)
Definition listdir (o : OS) (path : string) : outcome (list string) :=
  match node_at o path with
  | Some (FS.Dir es) => Return (map fst (map_to_list es))
  | _ => Raise (OSError path)
  end.

(** [os.makedirs(path, exist_ok=True)].  Where the call raises, the model
    gives the filesystem as it was before the call: directories that the
    call had made before it failed are not modelled, and the statements
    about a failing call are about the exception only. *)
Definition makedirs (o : OS) (path : string) : outcome unit * OS :=
  if FS.contains "000"%char path then (Raise (ValueError "embedded null byte"), o)
  else if bool_decide (path = "") then (Raise (OSError path), o)
  else match FS.mkdirs (fs o) (origin o path) (FS.split_sep path) with
       | Some t => (Return tt, {| environ := environ o; fs := t; cwd := cwd o |})
       | None => (Raise (OSError path), o)
       end.

(** [os.environ.get(key, default)] and [os.environ[key] = value]; the
    latter refuses a value with an embedded NUL. *)
Definition environ_get (o : OS) (key default : string) : string :=
  match environ o !! key with
  | Some v => v
  | None => default
  end.

Definition environ_set (key value : string) (o : OS) : outcome unit * OS :=
  if FS.contains "000"%char value then (Raise (ValueError "embedded null byte"), o)
  else (Return tt, {| environ := <[key := value]> (environ o); fs := fs o; cwd := cwd o |}).

End Os.

(** ** Requests, responses and the collaborators of the server *)

(** [class ResearchRequest(BaseModel)]. *)
Record ResearchRequest := {
  task : string;
  report_type : string;
  report_source : string;
  tone : string;
  headers : option (gmap string string);
  repo_name : string;
  branch_name : string;
  knowledge_base : option string;
  deep_research_config : option (gmap string Py.value);
  generate_in_background : bool;
}.

(** The part of [fastapi.UploadFile] that an upload carries. *)
Record UploadFile := {
  filename : string;
  file_content : string;
}.

(** What [write_report] reads from the researcher object that [run_agent]
    returns. *)
Record Researcher := {
  get_source_urls : list string;
  get_costs : Q;
  visited_urls : gset string;
  get_research_images : list string;
}.

(** The keyword arguments of the call of [run_agent] in [write_report]
    ([websocket] and [stream_output] are always [None] there). *)
Record AgentArgs (T : Type) := {
  arg_task : string;
  arg_report_type : string;
  arg_report_source : string;
  arg_source_urls : list string;
  arg_document_urls : list string;
  arg_tone : T;
  arg_headers : option (gmap string string);
  arg_query_domains : list string;
  arg_config_path : string;
  arg_vector_store_path : option string;
  arg_return_researcher : bool;
}.
Arguments arg_task {T}.
Arguments arg_report_type {T}.
Arguments arg_report_source {T}.
Arguments arg_source_urls {T}.
Arguments arg_document_urls {T}.
Arguments arg_tone {T}.
Arguments arg_headers {T}.
Arguments arg_query_domains {T}.
Arguments arg_config_path {T}.
Arguments arg_vector_store_path {T}.
Arguments arg_return_researcher {T}.

(** The functions and the enumeration that [server.py] imports from
    [backend.server.server_utils], [backend.server.websocket_manager],
    [backend.utils] and [gpt_researcher.utils.enum].  Each function that
    can touch the operating system takes the state of the process and
    returns it, with a result or an exception. *)
Class Collaborators := {
  Tone : Type;
  (** [Tone[name]], [None] for a name that is no member ([KeyError]) *)
  Tone_getitem : string → option Tone;
  sanitize_filename : string → string;
  (** the pair [(report, researcher)] returned with [return_researcher=True] *)
  run_agent : AgentArgs Tone → OS → outcome (string * Researcher) * OS;
  write_md_to_word : string → string → OS → outcome string * OS;
  write_md_to_pdf : string → string → OS → outcome string * OS;
  handle_file_upload : UploadFile → string → OS → outcome json * OS;
}.

(** A response of a handler.  FastAPI sends a returned [dict] as JSON with
    status 200; [JSONResponse(status_code=..., content=...)] chooses the
    status; [FileResponse(path)] names a file that is read when the response
    is sent. *)
Inductive response :=
  | Json (status_code : Z) (content : json)
  | FileResponse (path : string).

(** What the client gets when the response is sent: the status and the body.
    Starlette's [FileResponse] raises [RuntimeError] unless its path is a
    regular file. *)
Definition send (o : OS) (r : response) : outcome (Z * (json + string)) :=
  match r with
  | Json status content => Return (status, inl content)
  | FileResponse path =>
      match Os.node_at o path with
      | Some (FS.File content) => Return (200, inr content)
      | _ => Raise (RuntimeError path)
      end
  end.

(** The whole second in which a time falls, for a time since the epoch:
    [seconds <= now < seconds + 1]. *)
Definition in_second (now : Q) (seconds : Z) : Prop :=
  0 ≤ seconds ∧ (inject_Z seconds <= now)%Q ∧ (now < inject_Z (seconds + 1))%Q.

(** A route that [app.mount(path, StaticFiles(directory=...), name=...)]
    adds to the application. *)
Record Mount := {
  mount_path : string;
  mount_directory : string;
  mount_name : string;
}.

(** The two routes that the module mounts when it is imported. *)
Definition mounted_at_import : list Mount :=
  [ {| mount_path := "/site"; mount_directory := "./frontend"; mount_name := "site" |};
    {| mount_path := "/static"; mount_directory := "./frontend/static";
       mount_name := "static" |} ].

Section Server.

Context `{Collaborators}.

(** The state that the handlers run in.  [routes] are the mounted routes of
    the application [app], in the order in which they were added.
    [background_tasks] is the [BackgroundTasks] object of the request being
    served.  [agent_runs] is not program state: it records, for the
    statements about when the research computation runs, each call of
    [run_agent] with the environment at the time of the call (latest
    first). *)
Record World := {
  os : OS;
  clock : Q;
  routes : list Mount;
  background_tasks : list (ResearchRequest * string);
  agent_runs : list (AgentArgs Tone * gmap string string);
}.

(** Computations that read and write the state and may raise. *)
Definition M (A : Type) : Type := World → outcome A * World.

Definition ret {A} (a : A) : M A := λ w, (Return a, w).

Definition raise {A} (e : exn) : M A := λ w, (Raise e, w).

Definition bind {A B} (m : M A) (k : A → M B) : M B :=
  λ w, match m w with
       | (Return a, w') => k a w'
       | (Raise e, w') => (Raise e, w')
       end.

Definition gets {A} (f : World → A) : M A := λ w, (Return (f w), w).

Definition with_os (o : OS) (w : World) : World :=
  {| os := o; clock := clock w; routes := routes w;
     background_tasks := background_tasks w; agent_runs := agent_runs w |}.

(** A call that works on the operating system's part of the state. *)
Definition on_os {A} (f : OS → outcome A * OS) : M A :=
  λ w, let '(r, o) := f (os w) in (r, with_os o w).

#[export] Instance M_ret : MRet M := @ret.
#[export] Instance M_bind : MBind M := λ A B k m, bind m k.

(** [Tone[name]]. *)
Definition Tone_lookup (name : string) : M Tone :=
  match Tone_getitem name with
  | Some t => ret t
  | None => raise (KeyError name)
  end.

(** The call of [run_agent], recorded in [agent_runs]. *)
Definition call_run_agent (args : AgentArgs Tone) : M (string * Researcher) :=
  λ w, let '(r, o) := run_agent args (os w) in
       (r, {| os := o; clock := clock w; routes := routes w;
              background_tasks := background_tasks w;
              agent_runs := (args, environ (os w)) :: agent_runs w |}).

(** [background_tasks.add_task(write_report, research_request=...,
    research_id=...)]. *)
Definition with_task (research_request : ResearchRequest) (research_id : string)
    (w : World) : World :=
  {| os := os w; clock := clock w; routes := routes w;
     background_tasks := background_tasks w ++ [(research_request, research_id)];
     agent_runs := agent_runs w |}.

Definition add_task (research_request : ResearchRequest) (research_id : string) : M unit :=
  λ w, (Return tt, with_task research_request research_id w).

(** [app.mount(path, StaticFiles(directory=directory), name=name)].
    [StaticFiles] refuses a directory that does not exist ([RuntimeError]);
    [mount] then appends the route, whether or not a route with that path
    or name is mounted already. *)
Definition with_route (route : Mount) (w : World) : World :=
  {| os := os w; clock := clock w; routes := routes w ++ [route];
     background_tasks := background_tasks w; agent_runs := agent_runs w |}.

Definition app_mount (path directory name : string) : M unit :=
  there ← gets (λ w, Os.path_isdir (os w) directory);
  if negb there then raise (RuntimeError directory)
  else λ w, (Return tt,
             with_route {| mount_path := path; mount_directory := directory;
                           mount_name := name |} w).

(** *** [startup_event] *)
Definition startup_event : M unit :=
  on_os (λ o, Os.makedirs o "outputs") ;;
  app_mount "/outputs" "outputs" "outputs" ;;
  vector_store_path ← gets (λ w, Os.environ_get (os w) "VECTOR_STORE_PATH" "vector_store");
  on_os (λ o, Os.makedirs o vector_store_path).

(** *** [read_report] *)
Definition read_report (research_id : string) : M response :=
  let docx_path := Py.os_path_join "outputs" (research_id +:+ ".docx") in
  found ← gets (λ w, Os.path_exists (os w) docx_path);
  if negb found then mret (Json 200 (JObj [("message", JStr "Report not found.")]))
  else mret (FileResponse docx_path).

(** *** [write_report]

    The two blocks that configure the environment and the evaluation of the
    arguments of [run_agent] are named; the body of [write_report] runs
    them in the order of the source. *)
Definition configure_deep_research (research_request : ResearchRequest) : M unit :=
  if Py.truthy_dict (deep_research_config research_request) then
    let config := default ∅ (deep_research_config research_request) in
    on_os (Os.environ_set "DEEP_RESEARCH_DEPTH"
             (Py.str (Py.dict_get config "max_iterations" (Py.VInt 2)))) ;;
    on_os (Os.environ_set "DEEP_RESEARCH_BREADTH"
             (Py.str (Py.dict_get config "max_search_results_per_query" (Py.VInt 4))))
  else mret tt.

Definition configure_knowledge_base (research_request : ResearchRequest) : M (option string) :=
  if Py.truthy_str (knowledge_base research_request) then
    let name := default "" (knowledge_base research_request) in
    vector_store_base_path ← gets (λ w, Os.environ_get (os w) "VECTOR_STORE_PATH" "vector_store");
    let kb_path := Py.os_path_join vector_store_base_path name in
    let doc_path := Py.os_path_join kb_path "docs" in
    on_os (Os.environ_set "DOC_PATH" doc_path) ;;
    mret (Some kb_path)
  else mret None.

(** The names of the environment variables that [write_report] sets. *)
Definition configured (key : string) : Prop :=
  key = "DOC_PATH" ∨ key = "DEEP_RESEARCH_DEPTH" ∨ key = "DEEP_RESEARCH_BREADTH".

(** The evaluation of the arguments of the call of [run_agent], after the
    two blocks above; [Tone[research_request.tone]] is the one argument
    that can raise. *)
Definition run_agent_arguments (research_request : ResearchRequest) : M (AgentArgs Tone) :=
  configure_deep_research research_request ;;
  vector_store_path ← configure_knowledge_base research_request;
  tone_member ← Tone_lookup (tone research_request);
  mret {| arg_task := task research_request;
          arg_report_type := report_type research_request;
          arg_report_source := report_source research_request;
          arg_source_urls := [];
          arg_document_urls := [];
          arg_tone := tone_member;
          arg_headers := headers research_request;
          arg_query_domains := [];
          arg_config_path := "";
          arg_vector_store_path := vector_store_path;
          arg_return_researcher := true |}.

Definition write_report (research_request : ResearchRequest) (research_id : string) : M json :=
  arguments ← run_agent_arguments research_request;
  report_information ← call_run_agent arguments;
  docx_path ← on_os (write_md_to_word report_information.1 research_id);
  pdf_path ← on_os (write_md_to_pdf report_information.1 research_id);
  if negb (bool_decide (report_type research_request = "multi_agents")) then
    let '(report, researcher) := report_information in
    mret (JObj
      [("research_id", JStr research_id);
       ("research_information", JObj
          [("source_urls", JList (JStr <$> get_source_urls researcher));
           ("research_costs", JNum (get_costs researcher));
           ("visited_urls", JList (JStr <$> elements (visited_urls researcher)));
           ("research_images", JList (JStr <$> get_research_images researcher))]);
       ("report", JStr report);
       ("docx_path", JStr docx_path);
       ("pdf_path", JStr pdf_path)])
  else
    mret (JObj
      [("research_id", JStr research_id);
       ("report", JStr "");
       ("docx_path", JStr docx_path);
       ("pdf_path", JStr pdf_path)]).

(** *** [generate_report] *)

(** The identity of a job: [sanitize_filename(f"task_{int(time.time())}_{task}")]. *)
Definition job_key (now : Q) (task_text : string) : string :=
  "task_" +:+ Py.str_int (Py.int_of_float now) +:+ "_" +:+ task_text.

Definition make_research_id (now : Q) (task_text : string) : string :=
  sanitize_filename (job_key now task_text).

Definition queued_message : string :=
  "Your report is being generated in the background. Please check back later.".

Definition generate_report (research_request : ResearchRequest) : M response :=
  now ← gets clock;
  let research_id := make_research_id now (task research_request) in
  if generate_in_background research_request then
    add_task research_request research_id ;;
    mret (Json 200 (JObj [("message", JStr queued_message);
                          ("research_id", JStr research_id)]))
  else
    response ← write_report research_request research_id;
    mret (Json 200 response).

(** What FastAPI does with the tasks of the request once the response has
    been sent: it runs them in order, and an exception of a task ends the
    run (the client, already answered, sees none of it). *)
Fixpoint run_tasks (tasks : list (ResearchRequest * string)) : M unit :=
  match tasks with
  | [] => mret tt
  | (research_request, research_id) :: rest =>
      write_report research_request research_id ;; run_tasks rest
  end.

Definition without_tasks (w : World) : World :=
  {| os := os w; clock := clock w; routes := routes w; background_tasks := [];
     agent_runs := agent_runs w |}.

Definition run_background_tasks : M unit :=
  λ w, run_tasks (background_tasks w) (without_tasks w).

(** *** [upload_file] *)
Definition upload_file (file : UploadFile) (knowledge_base_name : string) : M response :=
  if bool_decide (knowledge_base_name = "") then
    mret (Json 400 (JObj [("message", JStr "Knowledge base name is required.")]))
  else
    vector_store_base_path ← gets (λ w, Os.environ_get (os w) "VECTOR_STORE_PATH" "vector_store");
    let kb_path := Py.os_path_join vector_store_base_path knowledge_base_name in
    let doc_path := Py.os_path_join kb_path "docs" in
    on_os (λ o, Os.makedirs o doc_path) ;;
    result ← on_os (handle_file_upload file doc_path);
    mret (Json 200 result).

(** *** [get_knowledge_bases] *)

(** The list [directories] that the handler computes. *)
Definition knowledge_base_directories (o : OS) : outcome (list string) :=
  let vector_store_path := Os.environ_get o "VECTOR_STORE_PATH" "vector_store" in
  if negb (Os.path_isdir o vector_store_path) then Return []
  else
    match Os.listdir o vector_store_path with
    | Return names =>
        Return (filter (λ d, Os.path_isdir o (Py.os_path_join vector_store_path d) = true) names)
    | Raise e => Raise e
    end.


End Server.

(** ** The collaborators as the specification describes them

    [server.py] imports these from modules that are not part of the server
    file.  The general statements below hold for every instance of
    [Collaborators]; this instance serves where a statement is about what a
    collaborator itself does, and for the concrete runs. *)

Module Model.

(** The three classes of characters that the specification keeps out of a
    job identity. *)
Definition path_separator (c : ascii) : bool :=
  bool_decide (c = "/"%char) || bool_decide (c = "\"%char).

Definition control_character (c : ascii) : bool :=
  (nat_of_ascii c <? 32)%nat || (nat_of_ascii c =? 127)%nat.

(** Characters that a filesystem refuses in a name ([< > : | ? *] and the
    double quote, code 34) or that cannot stand for themselves in a URL
    (the space, [# % ^ ` { }] and bytes outside ASCII). *)
Definition invalid_for_storage (c : ascii) : bool :=
  bool_decide (c ∈ ["<"; ">"; ":"; "|"; "?"; "*"; "034"; " "; "#"; "%"; "^"; "`"; "{"; "}"]%char)
  || (127 <? nat_of_ascii c)%nat.

Definition storage_safe (c : ascii) : bool :=
  negb (path_separator c || control_character c || invalid_for_storage c).

(** Modelled from the spec: [sanitize_filename] of
    [backend/server/server_utils.py] is missing.  The specification asks
    for an identity that is "sanitized to be safe as a storage key (no path
    separators, control characters, or characters invalid for
    filesystem/URL use)": the model removes exactly those characters. *)
Fixpoint sanitize_filename (s : string) : string :=
  match s with
  | EmptyString => EmptyString
  | String c s' =>
      if storage_safe c then String c (sanitize_filename s') else sanitize_filename s'
  end.

(** Modelled from the spec: the enumeration [Tone] of
    [gpt_researcher/utils/enum.py] is missing.  The specification says
    "tone (from a fixed enumerated set)" and does not list the set; three
    members stand for it. *)
Inductive Tone := Objective | Formal | Analytical.

Definition Tone_getitem (name : string) : option Tone :=
  if bool_decide (name = "Objective") then Some Objective
  else if bool_decide (name = "Formal") then Some Formal
  else if bool_decide (name = "Analytical") then Some Analytical
  else None.

(** Modelled from the spec: [run_agent] of
    [backend/server/websocket_manager.py] is missing.  The specification's
    contract is "execute(params, progressSink) -> (report, metadata)",
    opaque; this one reports on its task without touching the system. *)
Definition run_agent (args : AgentArgs Tone) (o : OS) : outcome (string * Researcher) * OS :=
  (Return ("Report on " +:+ arg_task args,
           {| get_source_urls := ["https://example.org/a"];
              get_costs := (3 # 100)%Q;
              visited_urls := {["https://example.org/a"]};
              get_research_images := [] |}),
   o).

(** Modelled from the spec: [write_md_to_word] and [write_md_to_pdf] of
    [backend/utils.py] are missing.  The specification's contract is
    "render(report, jobID) -> artifactPaths ... may fail with an I/O
    error": the model stores the report under [outputs/] and returns the
    path. *)
Definition render (extension : string) (report research_id : string) (o : OS)
    : outcome string * OS :=
  let path := Py.os_path_join "outputs" (research_id +:+ extension) in
  match Os.locate o path ≫= λ l, FS.write_node (fs o) l report with
  | Some t => (Return path, {| environ := environ o; fs := t; cwd := cwd o |})
  | None => (Raise (OSError path), o)
  end.

(** Modelled from the spec: [handle_file_upload] of
    [backend/server/server_utils.py] is missing.  The specification says
    that an upload stores a document under the document root: the model
    writes the file into the directory it is given and returns its name and
    path. *)
Definition handle_file_upload (file : UploadFile) (doc_path : string) (o : OS)
    : outcome json * OS :=
  let path := Py.os_path_join doc_path (filename file) in
  match Os.locate o path ≫= λ l, FS.write_node (fs o) l (file_content file) with
  | Some t =>
      (Return (JObj [("filename", JStr (filename file)); ("path", JStr path)]),
       {| environ := environ o; fs := t; cwd := cwd o |})
  | None => (Raise (OSError path), o)
  end.

#[global] Instance collaborators : Collaborators :=
  Build_Collaborators Tone Tone_getitem sanitize_filename run_agent
    (render ".docx") (render ".pdf") handle_file_upload.

(** A server directory [/srv] with an empty [outputs] in it, and a request
    for a research on ["foo"]. *)
Definition srv : OS :=
  {| environ := ∅;
     fs := FS.Dir {[ "srv" := FS.Dir {[ "outputs" := FS.Dir ∅ ]} ]};
     cwd := ["srv"] |}.

Definition world_at (now : Q) (o : OS) : World :=
  {| os := o; clock := now; routes := mounted_at_import;
     background_tasks := []; agent_runs := [] |}.

Definition request (report_kind tone_name : string) (base : option string)
    (in_background : bool) : ResearchRequest :=
  {| task := "foo";
     report_type := report_kind;
     report_source := "web";
     tone := tone_name;
     headers := None;
     repo_name := "";
     branch_name := "";
     knowledge_base := base;
     deep_research_config := None;
     generate_in_background := in_background |}.

Definition foo : ResearchRequest :=
  request "research_report" "Objective" None true.

Definition foo_foreground : ResearchRequest :=
  request "research_report" "Objective" None false.

Definition foo_sarcastic : ResearchRequest :=
  request "research_report" "Sarcastic" None true.

Definition foo_multi_agents : ResearchRequest :=
  request "multi_agents" "Objective" None false.

Definition foo_kb1 : ResearchRequest :=
  request "research_report" "Objective" (Some "kb1") false.

Definition foo_kb2 : ResearchRequest :=
  request "research_report" "Objective" (Some "kb2") false.

(** Two submissions in the second 1000: at 1000.2 s and at 1000.7 s. *)
Definition early : World := world_at (5001 # 5) srv.

Definition late : World := world_at (10007 # 10) srv.

(** A submission in the second 1001, at 1001.3 s. *)
Definition next_second : World := world_at (10013 # 10) srv.


(** The server directory with the artifact of a finished job, and with a
    knowledge base. *)
Definition srv_reported : OS :=
  {| environ := ∅;
     fs := FS.Dir {[ "srv" := FS.Dir {[ "outputs" :=
             FS.Dir {[ "task_1000_foo.docx" := FS.File "Report on foo" ]} ]} ]};
     cwd := ["srv"] |}.

(** The server directory with a directory where the artifact of a job
    would be. *)
Definition srv_occupied : OS :=
  {| environ := ∅;
     fs := FS.Dir {[ "srv" := FS.Dir {[ "outputs" :=
             FS.Dir {[ "task_1000_foo.docx" := FS.Dir ∅ ]} ]} ]};
     cwd := ["srv"] |}.

Definition srv_kb1 : OS :=
  {| environ := ∅;
     fs := FS.Dir {[ "srv" := FS.Dir {[ "vector_store" :=
             FS.Dir {[ "kb1" := FS.Dir {[ "docs" := FS.Dir ∅ ]} ]} ]} ]};
     cwd := ["srv"] |}.




Definition notes : UploadFile :=
  {| filename := "notes.txt"; file_content := "hello" |}.

End Model.

(** * Facts about the filesystem model *)

Module FSFacts.
Import FS.

Lemma lookup_node_app (l1 l2 : location) (t : node) :
  lookup_node (l1 ++ l2) t = lookup_node l1 t ≫= lookup_node l2.
Proof.
  revert t. induction l1 as [|n l1 IH]; intros t; simpl; [done|].
  destruct t as [c|es]; [done|].
  destruct (es !! n) as [sub|]; simpl; [apply IH|done].
Qed.

Lemma lookup_node_cons (n : string) (l : location) (es : gmap string node) :
  lookup_node (n :: l) (Dir es) = es !! n ≫= lookup_node l.
Proof. reflexivity. Qed.

Lemma is_dir_kind (t : node) (l : location) :
  is_dir t l = true ↔ kind_at t l = Directory.
Proof.
  unfold is_dir, kind_at.
  destruct (lookup_node l t) as [[c|es]|]; split; congruence.
Qed.


(** The parent of a node of the tree is a directory. *)
Lemma is_dir_parent (t : node) (l : location) (n : string) :
  is_Some (lookup_node (l ++ [n]) t) → is_dir t l = true.
Proof.
  rewrite lookup_node_app. unfold is_dir.
  destruct (lookup_node l t) as [[c|es]|]; simpl; intros [x Hx]; congruence.
Qed.

Lemma is_dir_removelast (t : node) (l : location) :
  is_dir t l = true → is_dir t (removelast l) = true.
Proof.
  destruct l as [|n l] using rev_ind; [done|].
  rewrite removelast_last. intros Hd. apply (is_dir_parent t l n).
  unfold is_dir in Hd. destruct (lookup_node (l ++ [n]) t); [eauto|done].
Qed.



Lemma leaf_empty_dir : leaf (Dir ∅).
Proof. intros n l. simpl. rewrite lookup_empty. reflexivity. Qed.

(** Putting a leaf where there is no directory, in a directory that exists,
    changes what there is at that location and nowhere else. *)
Lemma put_node_kind (p : location) (x : node) :
  leaf x → p ≠ [] →
  ∀ (t : node) (l' : location),
    is_dir t (removelast p) = true → is_dir t p = false →
    kind_at (put_node p x t) l' = if decide (l' = p) then kind_at x [] else kind_at t l'.
Proof.
  intros Hx. induction p as [|n p IH]; intros Hp t l' Hpar Hnd; [done|].
  destruct t as [c|es].
  { unfold is_dir in Hpar. destruct p; simpl in Hpar; done. }
  destruct p as [|k p].
  - simpl. destruct l' as [|m l'].
    + rewrite decide_False by done. reflexivity.
    + unfold kind_at. simpl. destruct (decide (m = n)) as [->|Hmn].
      * rewrite lookup_insert_eq. simpl.
        unfold is_dir in Hnd. simpl in Hnd.
        destruct l' as [|m' l'].
        -- rewrite decide_True by done. reflexivity.
        -- rewrite decide_False by congruence. rewrite Hx.
           destruct (es !! n) as [[c|es']|]; simpl in *; done.
      * rewrite lookup_insert_ne by done.
        rewrite decide_False by congruence. reflexivity.
  - assert (∃ sub, es !! n = Some sub ∧ is_dir sub (removelast (k :: p)) = true
                   ∧ is_dir sub (k :: p) = false) as (sub & Hsub & Hpar' & Hnd').
    { unfold is_dir in Hpar, Hnd.
      change (removelast (n :: k :: p)) with (n :: removelast (k :: p)) in Hpar.
      simpl lookup_node in Hpar, Hnd.
      destruct (es !! n) as [sub|]; [|done].
      exists sub. split; [done|]. split; exact Hpar || exact Hnd. }
    change (put_node (n :: k :: p) x (Dir es))
      with (match es !! n with
            | Some sub => Dir (<[n := put_node (k :: p) x sub]> es)
            | None => Dir es
            end).
    rewrite Hsub. destruct l' as [|m l'].
    + rewrite decide_False by done. reflexivity.
    + destruct (decide (m = n)) as [->|Hmn].
      * assert (kind_at (Dir (<[n := put_node (k :: p) x sub]> es)) (n :: l')
                = kind_at (put_node (k :: p) x sub) l') as ->.
        { unfold kind_at. rewrite lookup_node_cons, lookup_insert_eq. reflexivity. }
        assert (kind_at (Dir es) (n :: l') = kind_at sub l') as ->.
        { unfold kind_at. rewrite lookup_node_cons, Hsub. reflexivity. }
        rewrite (IH ltac:(done) sub l' Hpar' Hnd').
        repeat case_decide; congruence.
      * unfold kind_at. rewrite !lookup_node_cons, lookup_insert_ne by done.
        case_decide; congruence.
Qed.

Lemma put_dir_kind (t : node) (l : location) (n : string) (l' : location) :
  is_dir t l = true → lookup_node (l ++ [n]) t = None →
  kind_at (put_node (l ++ [n]) (Dir ∅) t) l'
  = if decide (l' = l ++ [n]) then Directory else kind_at t l'.
Proof.
  intros Hd Hn.
  rewrite (put_node_kind (l ++ [n]) (Dir ∅) leaf_empty_dir).
  - reflexivity.
  - destruct l; done.
  - rewrite removelast_last. exact Hd.
  - unfold is_dir. rewrite Hn. reflexivity.
Qed.

Lemma grows_refl (t : node) : grows t t.
Proof. intros l. left. reflexivity. Qed.

Lemma grows_trans (t1 t2 t3 : node) : grows t1 t2 → grows t2 t3 → grows t1 t3.
Proof.
  intros H12 H23 l. destruct (H12 l) as [E12|[M1 D2]], (H23 l) as [E23|[M2 D3]].
  - left. congruence.
  - right. split; congruence.
  - right. split; congruence.
  - congruence.
Qed.

Lemma grows_put_dir (t : node) (l : location) (n : string) :
  is_dir t l = true → lookup_node (l ++ [n]) t = None →
  grows t (put_node (l ++ [n]) (Dir ∅) t).
Proof.
  intros Hd Hn l'. rewrite put_dir_kind by done. case_decide as Hl'.
  - right. subst l'. split; [|done]. unfold kind_at. rewrite Hn. reflexivity.
  - left. reflexivity.
Qed.

Lemma grows_is_dir (t t' : node) (l : location) :
  grows t t' → is_dir t l = true → is_dir t' l = true.
Proof.
  intros Hg. rewrite !is_dir_kind. intros Hd.
  destruct (Hg l) as [E|[M _]]; congruence.
Qed.


Lemma step_named (l : location) (c : string) :
  special c = false → step l c = l ++ [c].
Proof.
  unfold step, special. intros Hc.
  destruct (bool_decide (c = "..")); [|rewrite Hc; reflexivity].
  rewrite orb_true_r in Hc. done.
Qed.

Lemma step_special_is_dir (t : node) (l : location) (c : string) :
  special c = true → is_dir t l = true → is_dir t (step l c) = true.
Proof.
  intros Hc Hd. unfold step. rewrite Hc.
  destruct (bool_decide (c = "..")); [apply is_dir_removelast|]; exact Hd.
Qed.

(** What [mkdirs] leaves behind: the old tree, grown. *)
Lemma mkdirs_grows (cs : list string) :
  ∀ (t : node) (l : location) (t' : node), mkdirs t l cs = Some t' → grows t t'.
Proof.
  induction cs as [|c cs IH]; intros t l t' Hm; simpl in Hm.
  { injection Hm as <-. apply grows_refl. }
  destruct (is_dir t l) eqn:Hd; simpl in Hm; [|done].
  destruct (special c) eqn:Hc; [by eapply IH|].
  destruct (lookup_node (l ++ [c]) t) as [[content|es]|] eqn:Hn; [done|by eapply IH|].
  eapply grows_trans; [|by eapply IH]. by apply grows_put_dir.
Qed.

(** After [mkdirs], the path resolves, to a directory, and so does every
    location it passes through. *)
Lemma mkdirs_walk (cs : list string) :
  ∀ (t : node) (l : location) (t' : node),
    mkdirs t l cs = Some t' → is_dir t l = true →
    ∃ lf, walk t' l cs = Some lf ∧ is_dir t' lf = true
          ∧ Forall (λ l', is_dir t' l' = true) (visited l cs).
Proof.
  induction cs as [|c cs IH]; intros t l t' Hm Hl; simpl in Hm.
  { injection Hm as <-. exists l. repeat split; [done|constructor]. }
  rewrite Hl in Hm. simpl in Hm.
  assert (is_dir t' l = true) as Hl'.
  { eapply grows_is_dir; [|exact Hl]. eapply (mkdirs_grows (c :: cs)).
    simpl. rewrite Hl. exact Hm. }
  simpl. rewrite Hl'.
  assert (∃ t1, mkdirs t1 (step l c) cs = Some t' ∧ is_dir t1 (step l c) = true)
    as (t1 & Hm1 & Hd1).
  { destruct (special c) eqn:Hc.
    - exists t. split; [done|]. by apply step_special_is_dir.
    - rewrite step_named by done.
      destruct (lookup_node (l ++ [c]) t) as [[content|es]|] eqn:Hn; [done| |].
      + exists t. split; [done|]. unfold is_dir. rewrite Hn. reflexivity.
      + eexists. split; [exact Hm|]. apply is_dir_kind.
        rewrite put_dir_kind by done. rewrite decide_True; done. }
  destruct (IH _ _ _ Hm1 Hd1) as (lf & Hw & Hlf & Hv).
  exists lf. repeat split; [done..|]. constructor; [|done].
  eapply grows_is_dir; [|exact Hd1]. by eapply mkdirs_grows.
Qed.


(** [mkdirs] changes nothing when the path already resolves to a
    directory. *)
Lemma mkdirs_existing (cs : list string) :
  ∀ (t : node) (l lf : location),
    walk t l cs = Some lf → is_dir t lf = true → mkdirs t l cs = Some t.
Proof.
  induction cs as [|c cs IH]; intros t l lf Hw Hlf; simpl; [done|].
  simpl in Hw. destruct (is_dir t l) eqn:Hl; [|done]. simpl.
  destruct (special c) eqn:Hc; [by eapply IH|].
  rewrite step_named in Hw by done.
  assert (is_dir t (l ++ [c]) = true) as Hd.
  { destruct cs as [|c' cs]; simpl in Hw.
    - injection Hw as <-. exact Hlf.
    - destruct (is_dir t (l ++ [c])); done. }
  unfold is_dir in Hd.
  destruct (lookup_node (l ++ [c]) t) as [[content|es]|]; [done| |done].
  by eapply IH.
Qed.

(** Resolution only looks at directories, so it survives growth. *)
Lemma walk_mono (t t' : node) (cs : list string) :
  (∀ l, is_dir t l = true → is_dir t' l = true) →
  ∀ (l lf : location), walk t l cs = Some lf → walk t' l cs = Some lf.
Proof.
  intros Hmono. induction cs as [|c cs IH]; intros l lf Hw; simpl in *; [done|].
  destruct (is_dir t l) eqn:Hl; [|done].
  rewrite (Hmono _ Hl). by apply IH.
Qed.


End FSFacts.

(** * Facts about path strings *)

Module PathFacts.
Import FS.


Lemma app_empty_r (a : string) : a +:+ "" = a.
Proof. induction a as [|x a IH]; [done|]. change (String x (a +:+ "") = String x a). by f_equal. Qed.





Lemma split_sep_nonempty (s : string) : split_sep s ≠ [].
Proof.
  destruct s as [|x s]; simpl; [done|].
  destruct (bool_decide (x = "/"%char)); [done|].
  destruct (split_sep s); done.
Qed.

Lemma split_sep_app_sep (a b : string) :
  split_sep (a +:+ "/" +:+ b) = split_sep a ++ split_sep b.
Proof.
  change ("/" +:+ b) with (String "/" b).
  induction a as [|x a IH]; simpl; [done|].
  destruct (bool_decide (x = "/"%char)); [by rewrite IH|].
  rewrite IH. pose proof (split_sep_nonempty a).
  destruct (split_sep a); done.
Qed.


Lemma split_sep_no_sep (d : string) :
  contains "/"%char d = false → split_sep d = [d].
Proof.
  induction d as [|x d IH]; simpl; [done|].
  destruct (bool_decide (x = "/"%char)); [done|].
  simpl. intros Hd. by rewrite IH.
Qed.

(** The three facts that make up [valid_name]. *)
Lemma valid_name_inv (d : string) :
  valid_name d = true →
  special d = false ∧ contains "/"%char d = false ∧ contains "000"%char d = false.
Proof.
  unfold valid_name. rewrite !andb_true_iff, !negb_true_iff. tauto.
Qed.

Lemma valid_name_nonempty (d : string) : valid_name d = true → d ≠ "".
Proof. intros Hd ->. done. Qed.


End PathFacts.

(** * Facts about the system calls *)

Module OsFacts.
Import FS FSFacts PathFacts.




Lemma join_nonempty (a b : string) : b ≠ "" → Py.os_path_join a b ≠ "".
Proof.
  intros Hb. unfold Py.os_path_join.
  destruct (Py.startswith_sep b); [done|].
  destruct (bool_decide (a = "") || Py.endswith_sep a);
    destruct a, b; done.
Qed.



(** A call that keeps the working directory and every directory keeps what
    [os.path.isdir] says yes to. *)
Lemma path_isdir_mono (o o' : OS) (path : string) :
  cwd o' = cwd o →
  (∀ l, is_dir (fs o) l = true → is_dir (fs o') l = true) →
  Os.path_isdir o path = true → Os.path_isdir o' path = true.
Proof.
  intros Hcwd Hmono. unfold Os.path_isdir, Os.node_at, Os.locate, Os.origin.
  rewrite Hcwd. destruct (Os.unusable path); [done|].
  destruct (walk (fs o) _ _) as [lf|] eqn:Hw; [|done].
  rewrite (walk_mono _ _ _ Hmono _ _ Hw). simpl.
  intros Hd. specialize (Hmono lf). unfold is_dir in Hmono.
  destruct (lookup_node lf (fs o)) as [[c|es]|]; try done.
  destruct (lookup_node lf (fs o')) as [[c'|es']|]; try done; by specialize (Hmono eq_refl).
Qed.

Lemma mkdirs_start (t t' : node) (l : location) (cs : list string) :
  cs ≠ [] → mkdirs t l cs = Some t' → is_dir t l = true.
Proof. destruct cs as [|c cs]; [done|]. simpl. by destruct (is_dir t l). Qed.

(** [os.makedirs(path, exist_ok=True)], when it returns: the path is a
    directory, every location on the way is one, and the tree has only
    grown. *)
Lemma makedirs_returns (o o1 : OS) (path : string) :
  Os.makedirs o path = (Return tt, o1) →
  Os.path_isdir o1 path = true
  ∧ Forall (λ l, is_dir (fs o1) l = true) (visited (Os.origin o path) (split_sep path))
  ∧ grows (fs o) (fs o1)
  ∧ environ o1 = environ o ∧ cwd o1 = cwd o.
Proof.
  unfold Os.makedirs. destruct (contains "000"%char path) eqn:Hnul; [done|].
  case_bool_decide as Hne; [done|].
  destruct (mkdirs (fs o) (Os.origin o path) (split_sep path)) as [t|] eqn:Hm; [|done].
  intros [= <-]. simpl.
  pose proof (mkdirs_start _ _ _ _ (split_sep_nonempty path) Hm) as Hstart.
  destruct (mkdirs_walk _ _ _ _ Hm Hstart) as (lf & Hw & Hlf & Hv).
  repeat split; [|done|by eapply mkdirs_grows].
  unfold Os.path_isdir, Os.node_at, Os.locate, Os.unusable, Os.origin in *. simpl.
  rewrite (bool_decide_eq_false_2 _ Hne), Hnul. simpl. rewrite Hw. simpl.
  unfold is_dir in Hlf. by destruct (lookup_node lf t) as [[c|es]|].
Qed.


(** It changes nothing when the path is a directory already. *)
Lemma makedirs_existing (o : OS) (path : string) :
  Os.path_isdir o path = true → Os.makedirs o path = (Return tt, o).
Proof.
  unfold Os.path_isdir, Os.node_at, Os.locate, Os.unusable, Os.makedirs.
  destruct (contains "000"%char path); [by rewrite orb_true_r|].
  case_bool_decide; [done|]. simpl.
  destruct (walk _ _ _) as [lf|] eqn:Hw; [|done]. simpl. intros Hd.
  erewrite mkdirs_existing; [by destruct o|exact Hw|].
  unfold is_dir. by destruct (lookup_node lf (fs o)) as [[c|es]|].
Qed.

End OsFacts.

(** * More facts about the filesystem model *)

Module FSMore.
Import FS FSFacts.

(** The components of a path that name entries. *)
Definition names (cs : list string) : list string :=
  filter (λ c, special c = false) cs.

Lemma names_cons_named (c : string) (cs : list string) :
  special c = false → names (c :: cs) = c :: names cs.
Proof. intros Hc. unfold names. by rewrite filter_cons_True. Qed.

Lemma names_cons_special (c : string) (cs : list string) :
  special c = true → names (c :: cs) = names cs.
Proof.
  intros Hc. unfold names. rewrite filter_cons_False; [done|]. by rewrite Hc.
Qed.

Lemma step_special_stays (l : location) (c : string) :
  special c = true → c ≠ ".." → step l c = l.
Proof.
  intros Hc Hup. unfold step. by rewrite (bool_decide_eq_false_2 _ Hup), Hc.
Qed.

Lemma lookup_put_node (l : location) (n : string) (x : node) :
  ∀ t, is_dir t l = true → lookup_node (l ++ [n]) (put_node (l ++ [n]) x t) = Some x.
Proof.
  induction l as [|m l IH]; intros t Hd.
  - unfold is_dir in Hd. simpl in Hd. destruct t as [c|es]; [done|].
    simpl. by rewrite lookup_insert_eq.
  - destruct t as [c|es]; [done|].
    unfold is_dir in Hd. rewrite lookup_node_cons in Hd.
    destruct (es !! m) as [sub|] eqn:Hsub; [|done]. simpl in Hd.
    change ((m :: l) ++ [n]) with (m :: (l ++ [n])).
    assert (put_node (m :: (l ++ [n])) x (Dir es)
            = Dir (<[m := put_node (l ++ [n]) x sub]> es)) as ->.
    { simpl. destruct (l ++ [n]) eqn:Hl; [by destruct l|]. by rewrite Hsub. }
    rewrite lookup_node_cons, lookup_insert_eq. simpl. apply IH.
    unfold is_dir. exact Hd.
Qed.

(** Without [".."], a path leads to its named components, in order. *)
Lemma walk_names (t : node) (cs : list string) :
  Forall (λ c, c ≠ "..") cs →
  ∀ l lf, walk t l cs = Some lf → lf = l ++ names cs.
Proof.
  induction 1 as [|c cs Hc Hcs IH]; intros l lf Hw; simpl in Hw.
  { injection Hw as <-. unfold names. simpl. by rewrite app_nil_r. }
  destruct (is_dir t l); [|done].
  destruct (special c) eqn:Hsp.
  - rewrite step_special_stays in Hw by done.
    rewrite names_cons_special by done. by apply IH.
  - rewrite step_named in Hw by done. rewrite names_cons_named by done.
    rewrite (IH _ _ Hw). by rewrite <- app_assoc.
Qed.

(** A directory that [mkdirs] has made at the end of a path without
    [".."] is empty. *)
Lemma mkdirs_fresh (cs : list string) :
  Forall (λ c, c ≠ "..") cs →
  ∀ t l t',
    mkdirs t l cs = Some t' →
    (names cs ≠ [] ∧ kind_at t (l ++ names cs) = Missing)
    ∨ (names cs = [] ∧ lookup_node l t = Some (Dir ∅)) →
    lookup_node (l ++ names cs) t' = Some (Dir ∅).
Proof.
  induction 1 as [|c cs Hc Hcs IH]; intros t l t' Hm Hcase; simpl in Hm.
  { injection Hm as <-. destruct Hcase as [[Hn _]|[_ Hl]]; [done|].
    unfold names. simpl. by rewrite app_nil_r. }
  destruct (is_dir t l) eqn:Hl; simpl in Hm; [|done].
  destruct (special c) eqn:Hsp.
  - rewrite step_special_stays in Hm by done.
    rewrite names_cons_special in * by done. by eapply IH.
  - rewrite names_cons_named in Hcase |- * by done.
    destruct Hcase as [[_ Hmiss]|[Hn _]]; [|done].
    assert (l ++ c :: names cs = (l ++ [c]) ++ names cs) as Hassoc
      by (by rewrite <- app_assoc).
    rewrite Hassoc in Hmiss |- *.
    destruct (decide (names cs = [])) as [Hns|Hns].
    + rewrite Hns, app_nil_r in Hmiss. unfold kind_at in Hmiss.
      destruct (lookup_node (l ++ [c]) t) as [[content|es]|] eqn:Hlook; try done.
      eapply IH; [exact Hm|]. right. split; [done|].
      by apply lookup_put_node.
    + destruct (lookup_node (l ++ [c]) t) as [[content|es]|] eqn:Hlook; [done| |].
      * eapply IH; [exact Hm|]. by left.
      * eapply IH; [exact Hm|]. left. split; [done|].
        rewrite put_dir_kind by done. rewrite decide_False; [done|].
        intros Heq. apply (f_equal length) in Heq.
        rewrite length_app in Heq. destruct (names cs); [done|]. simpl in Heq. lia.
Qed.

(** Where a path without [".."] that [mkdirs] can make does not resolve,
    there is nothing at its end. *)
Lemma unresolved_is_missing (cs : list string) :
  Forall (λ c, c ≠ "..") cs →
  ∀ t l t',
    is_dir t l = true → mkdirs t l cs = Some t' →
    walk t l cs ≫= (λ lf, lookup_node lf t) = None →
    kind_at t (l ++ names cs) = Missing.
Proof.
  induction 1 as [|c cs Hc Hcs IH]; intros t l t' Hl Hm Hnone; simpl in Hm, Hnone.
  { unfold is_dir in Hl. by destruct (lookup_node l t). }
  rewrite Hl in Hm, Hnone. simpl in Hm.
  destruct (special c) eqn:Hsp.
  - rewrite step_special_stays in Hm, Hnone by done.
    rewrite names_cons_special by done. by eapply IH.
  - rewrite step_named in Hnone by done. rewrite names_cons_named by done.
    replace (l ++ c :: names cs) with ((l ++ [c]) ++ names cs)
      by (by rewrite <- app_assoc).
    destruct (lookup_node (l ++ [c]) t) as [[content|es]|] eqn:Hlook; [done| |].
    + eapply IH; [|exact Hm|exact Hnone]. unfold is_dir. by rewrite Hlook.
    + unfold kind_at. by rewrite lookup_node_app, Hlook.
Qed.

(** [mkdirs] fails when a regular file sits on the way. *)
Lemma mkdirs_blocked (t : node) (l : location) (cs : list string) :
  Exists (λ l', is_file t l' = true) (visited l cs) → mkdirs t l cs = None.
Proof.
  intros Hfile. destruct (mkdirs t l cs) as [t'|] eqn:Hm; [|done].
  assert (cs ≠ []) as Hcs by (intros ->; by apply Exists_nil in Hfile).
  assert (is_dir t l = true) as Hl.
  { destruct cs as [|c cs]; [done|]. simpl in Hm. by destruct (is_dir t l). }
  destruct (mkdirs_walk _ _ _ _ Hm Hl) as (lf & _ & _ & Hdirs).
  pose proof (mkdirs_grows _ _ _ _ Hm) as Hg.
  apply Exists_exists in Hfile as (l' & Hin & Hf).
  rewrite Forall_forall in Hdirs. specialize (Hdirs l' Hin).
  apply is_dir_kind in Hdirs. unfold is_file, kind_at in *.
  destruct (Hg l') as [Heq|[Hmiss _]]; unfold kind_at in *;
    destruct (lookup_node l' t) as [[content|es]|]; congruence.
Qed.

End FSMore.

(** * Facts about the handlers *)

Section MonadFacts.

Context `{Collaborators}.

Lemma bind_return {A B} (m : M A) (k : A → M B) (w w1 : World) (a : A) :
  m w = (Return a, w1) → (m ≫= k) w = k a w1.
Proof. intros Hm. unfold mbind, M_bind, bind. by rewrite Hm. Qed.

Lemma bind_raise {A B} (m : M A) (k : A → M B) (w w1 : World) (e : exn) :
  m w = (Raise e, w1) → (m ≫= k) w = (Raise e, w1).
Proof. intros Hm. unfold mbind, M_bind, bind. by rewrite Hm. Qed.

Lemma bind_inv {A B} (m : M A) (k : A → M B) (w w' : World) (r : outcome B) :
  (m ≫= k) w = (r, w') →
  (∃ a w1, m w = (Return a, w1) ∧ k a w1 = (r, w'))
  ∨ (∃ e, m w = (Raise e, w') ∧ r = Raise e).
Proof.
  unfold mbind, M_bind, bind. destruct (m w) as [[a|e] w1]; intros Hk.
  - left. by exists a, w1.
  - right. exists e. by injection Hk as <- <-.
Qed.

Lemma on_os_eq {A} (f : OS → outcome A * OS) (w : World) :
  on_os f w = ((f (os w)).1, with_os (f (os w)).2 w).
Proof. unfold on_os. by destruct (f (os w)). Qed.

Lemma with_os_same (w : World) : with_os (os w) w = w.
Proof. by destruct w. Qed.

End MonadFacts.

Section ReadReport.

Context `{Collaborators}.

(** The path that [read_report] looks at is [outputs/<id>.docx], for an
    identity that does not start with a separator (the route
    [/report/{research_id}] lets none through). *)
Lemma read_report_path (research_id : string) :
  Py.startswith_sep research_id = false →
  Py.os_path_join "outputs" (research_id +:+ ".docx")
  = "outputs/" +:+ research_id +:+ ".docx".
Proof.
  intros Hid. unfold Py.os_path_join.
  destruct research_id as [|c s]; [done|].
  simpl in Hid |- *. by rewrite Hid.
Qed.

(** C5, as the code has it.  [read_report] looks at [outputs/<id>.docx] (a
    research_id of the route has no separator in it) and asks whether
    anything exists there.  When a regular file does, it answers with the
    artifact, and the client receives its content with status 200.  When
    nothing exists at that path, which is the case of a job that is queued
    or running, the answer is the message "Report not found." with status
    200, not an error status.  When a directory is there, the answer is
    not the message: it is a file response for the directory, and sending
    it fails.  The state is left as it was in each case. *)
Theorem read_report_artifact_or_not_found (research_id : string) (w : World) :
  let docx_path := Py.os_path_join "outputs" (research_id +:+ ".docx") in
  (Py.startswith_sep research_id = false →
   docx_path = "outputs/" +:+ research_id +:+ ".docx")
  ∧ (∀ content,
     Os.node_at (os w) docx_path = Some (FS.File content) →
     read_report research_id w = (Return (FileResponse docx_path), w)
     ∧ send (os w) (FileResponse docx_path) = Return (200, inr content))
  ∧ (Os.node_at (os w) docx_path = None →
     read_report research_id w
     = (Return (Json 200 (JObj [("message", JStr "Report not found.")])), w))
  ∧ (∀ (research_request : ResearchRequest) (w0 : World) (r : outcome response),
     generate_in_background research_request = true →
     generate_report research_request w0 = (r, w) →
     Os.node_at (os w0) docx_path = None →
     read_report research_id w
     = (Return (Json 200 (JObj [("message", JStr "Report not found.")])), w))
  ∧ (∀ entries,
     Os.node_at (os w) docx_path = Some (FS.Dir entries) →
     read_report research_id w = (Return (FileResponse docx_path), w)
     ∧ send (os w) (FileResponse docx_path) = Raise (RuntimeError docx_path)).
Proof.
  intros docx_path.
  assert (∀ found, Os.path_exists (os w) docx_path = found →
            read_report research_id w
            = (Return (if found then FileResponse docx_path
                       else Json 200 (JObj [("message", JStr "Report not found.")])), w))
    as Hrun.
  { intros found Hf. unfold read_report. fold docx_path.
    erewrite bind_return; [|unfold gets; reflexivity].
    rewrite Hf. by destruct found. }
  split; [apply read_report_path|]. split; [|split; [|split]].
  - intros content Hnode. split.
    + apply (Hrun true). unfold Os.path_exists. by rewrite Hnode.
    + simpl. by rewrite Hnode.
  - intros Hnone. apply (Hrun false). unfold Os.path_exists. by rewrite Hnone.
  - intros research_request w0 r Hbg Hgen Hnone. apply (Hrun false).
    unfold generate_report in Hgen.
    erewrite bind_return in Hgen; [|unfold gets; reflexivity].
    rewrite Hbg in Hgen.
    erewrite bind_return in Hgen; [|unfold add_task; reflexivity].
    injection Hgen as _ <-. unfold Os.path_exists. simpl. by rewrite Hnone.
  - intros entries Hnode. split.
    + apply (Hrun true). unfold Os.path_exists. by rewrite Hnode.
    + simpl. by rewrite Hnode.
Qed.

End ReadReport.

Section WriteReport.

Context `{Collaborators}.

(** Unfolds the monadic steps that come before the call of [run_agent]. *)
Ltac unfold_arguments :=
  unfold run_agent_arguments, configure_deep_research, configure_knowledge_base,
    Tone_lookup, mbind, M_bind, bind, mret, M_ret, ret, raise, gets, on_os,
    Os.environ_set, with_os in *.

Ltac run_arguments := unfold_arguments; repeat (case_match; simplify_eq/=).

(** Before the call of [run_agent], [write_report] touches the environment
    and nothing else, and in the environment only the three variables. *)
Lemma run_agent_arguments_frame (research_request : ResearchRequest)
    (w w1 : World) (r : outcome (AgentArgs Tone)) :
  run_agent_arguments research_request w = (r, w1) →
  fs (os w1) = fs (os w) ∧ cwd (os w1) = cwd (os w) ∧ clock w1 = clock w
  ∧ background_tasks w1 = background_tasks w ∧ agent_runs w1 = agent_runs w
  ∧ ∀ key, ¬ configured key → environ (os w1) !! key = environ (os w) !! key.
Proof.
  unfold configured. intros Hrun. run_arguments; repeat split; try done;
    intros key Hkey; rewrite ?lookup_insert_ne by naive_solver; reflexivity.
Qed.

(** A tone that is no member of the enumeration makes the evaluation of the
    arguments raise: [KeyError] from [Tone[...]], unless setting a variable
    has already failed. *)
Lemma run_agent_arguments_unknown_tone (research_request : ResearchRequest) (w : World) :
  Tone_getitem (tone research_request) = None →
  ∃ e w1,
    run_agent_arguments research_request w = (Raise e, w1)
    ∧ (e = KeyError (tone research_request) ∨ e = ValueError "embedded null byte").
Proof.
  intros Htone. destruct (run_agent_arguments research_request w) as [r w1] eqn:Hrun.
  run_arguments; eauto.
Qed.

(** With a knowledge base, the arguments carry its path and [DOC_PATH] is
    set to its [docs] directory. *)
Lemma run_agent_arguments_knowledge_base (research_request : ResearchRequest)
    (w w1 : World) (args : AgentArgs Tone) (name : string) :
  run_agent_arguments research_request w = (Return args, w1) →
  knowledge_base research_request = Some name → name ≠ "" →
  let kb_path :=
    Py.os_path_join (Os.environ_get (os w) "VECTOR_STORE_PATH" "vector_store") name in
  arg_vector_store_path args = Some kb_path
  ∧ environ (os w1) !! "DOC_PATH" = Some (Py.os_path_join kb_path "docs").
Proof.
  intros Hrun Hkb Hname kb_path. subst kb_path.
  unfold_arguments. unfold Os.environ_get in *. rewrite Hkb in *.
  simpl in *. rewrite (bool_decide_eq_false_2 _ Hname) in Hrun. simpl in Hrun.
  repeat (case_match; simplify_eq/=);
    repeat match goal with
      | Hx : context [<[_:=_]> _ !! _] |- _ => rewrite lookup_insert_ne in Hx by done
      end;
    split; repeat first [rewrite lookup_insert_eq | rewrite lookup_insert_ne by done];
    congruence.
Qed.

(** With a tuning dictionary, the two deep-research variables are set from
    it, with the defaults 2 and 4. *)
Lemma run_agent_arguments_deep_research (research_request : ResearchRequest)
    (w w1 : World) (args : AgentArgs Tone) (config : gmap string Py.value) :
  run_agent_arguments research_request w = (Return args, w1) →
  deep_research_config research_request = Some config → config ≠ ∅ →
  environ (os w1) !! "DEEP_RESEARCH_DEPTH"
  = Some (Py.str (Py.dict_get config "max_iterations" (Py.VInt 2)))
  ∧ environ (os w1) !! "DEEP_RESEARCH_BREADTH"
    = Some (Py.str (Py.dict_get config "max_search_results_per_query" (Py.VInt 4))).
Proof.
  intros Hrun Hcfg Hne.
  unfold_arguments. rewrite Hcfg in *.
  simpl in *. rewrite (bool_decide_eq_false_2 _ Hne) in Hrun. simpl in Hrun.
  repeat (case_match; simplify_eq/=);
    split; repeat first [rewrite lookup_insert_eq | rewrite lookup_insert_ne by done];
    done.
Qed.

(** Without either, the environment is left as it is. *)
Lemma run_agent_arguments_plain (research_request : ResearchRequest)
    (w w1 : World) (r : outcome (AgentArgs Tone)) :
  run_agent_arguments research_request w = (r, w1) →
  Py.truthy_str (knowledge_base research_request) = false →
  Py.truthy_dict (deep_research_config research_request) = false →
  w1 = w.
Proof.
  intros Hrun Hkb Hcfg. unfold_arguments. rewrite Hkb, Hcfg in Hrun.
  destruct w as [[]]. repeat (case_match; simplify_eq/=); done.
Qed.

(** [write_report] stops where the evaluation of the arguments raises, and
    otherwise calls [run_agent], once, in the environment it has
    configured; what comes after the call adds no call. *)
Lemma write_report_raises_early (research_request : ResearchRequest)
    (research_id : string) (w w1 : World) (e : exn) :
  run_agent_arguments research_request w = (Raise e, w1) →
  write_report research_request research_id w = (Raise e, w1).
Proof. intros Hrun. unfold write_report. by erewrite bind_raise. Qed.

Lemma write_report_calls_run_agent (research_request : ResearchRequest)
    (research_id : string) (w w1 : World) (args : AgentArgs Tone) :
  run_agent_arguments research_request w = (Return args, w1) →
  agent_runs (write_report research_request research_id w).2
  = (args, environ (os w1)) :: agent_runs w1.
Proof.
  intros Hrun. unfold write_report. erewrite bind_return by exact Hrun.
  unfold mbind, M_bind, bind, call_run_agent, on_os, with_os, mret, M_ret, ret.
  repeat (case_match; simplify_eq/=); done.
Qed.

End WriteReport.

(** * Facts about job identities *)

Module KeyFacts.
Import FS PathFacts.

(** A decimal numeral has no underscore in it. *)
Lemma digits_no_underscore (d : Decimal.uint) :
  contains "_"%char (NilEmpty.string_of_uint d) = false.
Proof. induction d; simpl; done. Qed.

Lemma str_int_no_underscore (z : Z) : contains "_"%char (Py.str_int z) = false.
Proof.
  unfold Py.str_int, NilZero.string_of_int, NilZero.string_of_uint.
  destruct (Z.to_int z) as [d|d]; destruct d; simpl;
    try done; apply digits_no_underscore.
Qed.

Lemma to_int_not_nil (z : Z) :
  Z.to_int z ≠ Decimal.Pos Decimal.Nil ∧ Z.to_int z ≠ Decimal.Neg Decimal.Nil.
Proof.
  destruct z as [|p|p]; simpl; split; try done;
    intros [= Hp]; by apply (Unsigned.to_uint_nonnil p).
Qed.

(** [str] is injective on integers. *)
Lemma str_int_inj (z1 z2 : Z) : Py.str_int z1 = Py.str_int z2 → z1 = z2.
Proof.
  unfold Py.str_int. intros Hs. apply DecimalZ.to_int_inj.
  destruct (to_int_not_nil z1) as [Hp1 Hn1], (to_int_not_nil z2) as [Hp2 Hn2].
  pose proof (NilZero.isi _ Hp1 Hn1) as H1.
  pose proof (NilZero.isi _ Hp2 Hn2) as H2.
  rewrite Hs in H1. congruence.
Qed.

(** A text is cut at its first separator in one way only. *)
Lemma cut_at_first_inj (c : ascii) (d1 d2 t1 t2 : string) :
  contains c d1 = false → contains c d2 = false →
  d1 +:+ String c t1 = d2 +:+ String c t2 → d1 = d2 ∧ t1 = t2.
Proof.
  revert d2. induction d1 as [|x d1 IH]; intros [|y d2]; simpl.
  - intros _ _ [= ->]. done.
  - intros _ Hy [= <- _]. rewrite bool_decide_eq_true_2 in Hy; done.
  - intros Hx _ [= -> _]. rewrite bool_decide_eq_true_2 in Hx; done.
  - intros Hx Hy [= -> Heq]. apply orb_false_iff in Hx as [_ Hx], Hy as [_ Hy].
    destruct (IH d2 Hx Hy Heq) as [-> ->]. done.
Qed.

(** [int(now)] is the whole second in which [now] falls. *)
Lemma int_of_float_in_second (now : Q) (seconds : Z) :
  in_second now seconds → Py.int_of_float now = seconds.
Proof.
  destruct now as [n d]. unfold in_second, Py.int_of_float, Qle, Qlt. simpl.
  intros (Hpos & Hle & Hlt).
  rewrite Z.quot_div_nonneg by lia.
  symmetry. apply (Z.div_unique n (Z.pos d) seconds (n - seconds * Z.pos d)); lia.
Qed.

(** A text [task_<seconds>_<rest>] determines the second and the rest. *)
Lemma key_format_inj (seconds1 seconds2 : Z) (rest1 rest2 : string) :
  "task_" +:+ Py.str_int seconds1 +:+ "_" +:+ rest1
  = "task_" +:+ Py.str_int seconds2 +:+ "_" +:+ rest2
  ↔ seconds1 = seconds2 ∧ rest1 = rest2.
Proof.
  split; [|by intros [-> ->]].
  intros Hk. apply String.app_inj in Hk.
  change ("_" +:+ rest1) with (String "_" rest1) in Hk.
  change ("_" +:+ rest2) with (String "_" rest2) in Hk.
  apply cut_at_first_inj in Hk as [Hs Ht]; try apply str_int_no_underscore.
  split; [by apply str_int_inj|done].
Qed.

(** The key [task_<seconds>_<task>] determines the second and the task. *)
Lemma job_key_inj (now1 now2 : Q) (task1 task2 : string) :
  job_key now1 task1 = job_key now2 task2 ↔
  Py.int_of_float now1 = Py.int_of_float now2 ∧ task1 = task2.
Proof.
  split; [|intros [Hs ->]; unfold job_key; by rewrite Hs].
  unfold job_key. intros Hk. apply String.app_inj in Hk.
  change ("_" +:+ task1) with (String "_" task1) in Hk.
  change ("_" +:+ task2) with (String "_" task2) in Hk.
  apply cut_at_first_inj in Hk as [Hs Ht]; try apply str_int_no_underscore.
  split; [by apply str_int_inj|done].
Qed.

End KeyFacts.

Section Submit.

Context `{Collaborators}.

(** Every body that [write_report] returns carries the identity it was
    given. *)
Lemma write_report_research_id (research_request : ResearchRequest)
    (research_id : string) (w w' : World) (body : json) :
  write_report research_request research_id w = (Return body, w') →
  jget "research_id" body = Some (JStr research_id).
Proof.
  unfold write_report. intros Hrun.
  apply bind_inv in Hrun as [(args & w1 & _ & Hrun)|(e & _ & [=])].
  apply bind_inv in Hrun as [(info & w2 & _ & Hrun)|(e & _ & [=])].
  apply bind_inv in Hrun as [(docx & w3 & _ & Hrun)|(e & _ & [=])].
  apply bind_inv in Hrun as [(pdf & w4 & _ & Hrun)|(e & _ & [=])].
  destruct (negb _), info; injection Hrun as <- _; reflexivity.
Qed.

(** In either mode, a response of [generate_report] carries the identity
    made from the clock and the task. *)
Lemma generate_report_research_id (research_request : ResearchRequest)
    (w w' : World) (status : Z) (body : json) :
  generate_report research_request w = (Return (Json status body), w') →
  jget "research_id" body
  = Some (JStr (make_research_id (clock w) (task research_request))).
Proof.
  unfold generate_report. intros Hrun.
  erewrite bind_return in Hrun; [|unfold gets; reflexivity].
  destruct (generate_in_background research_request).
  - erewrite bind_return in Hrun; [|unfold add_task; reflexivity].
    injection Hrun as _ <- _. reflexivity.
  - apply bind_inv in Hrun as [(response & w1 & Hw & Hrun)|(e & _ & [=])].
    injection Hrun as _ <- _. by eapply write_report_research_id.
Qed.

(** The run of the tasks of a request that has queued one job. *)
Lemma run_background_tasks_single (research_request : ResearchRequest)
    (research_id : string) (w : World) :
  background_tasks w = [(research_request, research_id)] →
  run_background_tasks w
  = (write_report research_request research_id ≫= λ _, mret tt) (without_tasks w).
Proof. intros Hq. unfold run_background_tasks. rewrite Hq. reflexivity. Qed.

Lemma bind_unit_state {A} (m : M A) (w : World) :
  ((m ≫= λ _, mret tt) w).2 = (m w).2.
Proof. unfold mbind, M_bind, bind. by destruct (m w) as [[a|e] w1]. Qed.

(** The run of [generate_report] in background mode. *)
Lemma generate_report_background_eq (research_request : ResearchRequest) (w : World) :
  generate_in_background research_request = true →
  generate_report research_request w
  = (Return (Json 200
       (JObj [("message", JStr queued_message);
              ("research_id",
               JStr (make_research_id (clock w) (task research_request)))])),
     with_task research_request
       (make_research_id (clock w) (task research_request)) w).
Proof.
  intros Hbg. unfold generate_report.
  erewrite bind_return; [|unfold gets; reflexivity].
  rewrite Hbg.
  erewrite bind_return; [|unfold add_task; reflexivity].
  reflexivity.
Qed.

(** C3. In background mode [generate_report] answers with status 200, the
    message that the report is being generated in the background, and the
    identity of the job, and it has then only put the job in the queue of
    background tasks: [run_agent] has not been called and the operating
    system's state is as it was.  The call of [run_agent] for the job comes
    when the tasks of the request are run, after the response. *)
Theorem generate_report_background_is_queued
    (research_request : ResearchRequest) (w : World) :
  generate_in_background research_request = true →
  let research_id := make_research_id (clock w) (task research_request) in
  ∃ w',
    generate_report research_request w
    = (Return
         (Json 200
            (JObj [("message",
                    JStr "Your report is being generated in the background. Please check back later.");
                   ("research_id", JStr research_id)])), w')
    ∧ background_tasks w' = background_tasks w ++ [(research_request, research_id)]
    ∧ agent_runs w' = agent_runs w
    ∧ os w' = os w
    ∧ clock w' = clock w
    ∧ (background_tasks w = [] →
       ∀ args w1,
         run_agent_arguments research_request (without_tasks w') = (Return args, w1) →
         agent_runs (run_background_tasks w').2
         = (args, environ (os w1)) :: agent_runs w).
Proof.
  intros Hbg research_id.
  rewrite (generate_report_background_eq research_request w Hbg).
  fold research_id. change queued_message
    with "Your report is being generated in the background. Please check back later.".
  eexists. split; [reflexivity|]. repeat split.
  intros Hempty args w1 Hargs.
  rewrite (run_background_tasks_single research_request research_id)
    by (simpl; by rewrite Hempty).
  rewrite bind_unit_state.
  rewrite (write_report_calls_run_agent _ _ _ _ _ Hargs).
  destruct (run_agent_arguments_frame _ _ _ _ Hargs) as (_ & _ & _ & _ & Hr & _).
  by rewrite Hr.
Qed.

(** C2, as the code has it.  [generate_report] validates nothing itself.
    A tone outside the enumeration is found by [Tone[...]] inside
    [write_report]: in foreground mode the caller gets the exception,
    before [run_agent] is called and with nothing queued; in background
    mode the submission is acknowledged as queued, and it is the run of
    the queued task, after the response, that raises. *)
Theorem unknown_tone_is_found_by_write_report
    (research_request : ResearchRequest) (w : World) :
  Tone_getitem (tone research_request) = None →
  let research_id := make_research_id (clock w) (task research_request) in
  (generate_in_background research_request = false →
   ∃ e w',
     generate_report research_request w = (Raise e, w')
     ∧ (e = KeyError (tone research_request) ∨ e = ValueError "embedded null byte")
     ∧ agent_runs w' = agent_runs w
     ∧ background_tasks w' = background_tasks w
     ∧ fs (os w') = fs (os w))
  ∧ (generate_in_background research_request = true →
     ∃ w',
       generate_report research_request w
       = (Return (Json 200 (JObj [("message", JStr queued_message);
                                  ("research_id", JStr research_id)])), w')
       ∧ background_tasks w' = background_tasks w ++ [(research_request, research_id)]
       ∧ (background_tasks w = [] →
          ∃ e w'',
            run_background_tasks w' = (Raise e, w'')
            ∧ (e = KeyError (tone research_request)
               ∨ e = ValueError "embedded null byte")
            ∧ agent_runs w'' = agent_runs w)).
Proof.
  intros Htone research_id. split; intros Hbg.
  - destruct (run_agent_arguments_unknown_tone research_request w Htone)
      as (e & w1 & Hargs & He).
    destruct (run_agent_arguments_frame _ _ _ _ Hargs) as (Hfs & _ & _ & Hq & Hr & _).
    exists e, w1. split; [|done].
    unfold generate_report.
    erewrite bind_return; [|unfold gets; reflexivity].
    rewrite Hbg. fold research_id.
    erewrite bind_raise; [reflexivity|]. by apply write_report_raises_early.
  - pose proof (generate_report_background_eq research_request w Hbg) as Hrun.
    fold research_id in Hrun.
    set (w' := with_task research_request research_id w) in *.
    assert (background_tasks w'
            = background_tasks w ++ [(research_request, research_id)]) as Hq
      by reflexivity.
    assert (agent_runs w' = agent_runs w) as Hr by reflexivity.
    exists w'. split; [exact Hrun|]. split; [exact Hq|]. intros Hempty.
    destruct (run_agent_arguments_unknown_tone research_request (without_tasks w') Htone)
      as (e & w1 & Hargs & He).
    destruct (run_agent_arguments_frame _ _ _ _ Hargs) as (_ & _ & _ & _ & Hr1 & _).
    exists e, w1. split; [|split; [done|]].
    + rewrite (run_background_tasks_single research_request research_id)
        by (by rewrite Hq, Hempty).
      erewrite bind_raise; [reflexivity|]. by apply write_report_raises_early.
    + rewrite Hr1. exact Hr.
Qed.

(** C10. With an empty name of a knowledge base, [upload_file] answers with
    status 400 and the message, and the state is as it was: no directory
    has been made and [handle_file_upload] has not been called. *)
Theorem upload_file_requires_knowledge_base (file : UploadFile) (w : World) :
  upload_file file "" w
  = (Return (Json 400 (JObj [("message", JStr "Knowledge base name is required.")])), w).
Proof. unfold upload_file. rewrite bool_decide_eq_true_2 by done. reflexivity. Qed.

End Submit.

Section Foreground.

Context `{Collaborators}.

Lemma generate_report_foreground_eq (research_request : ResearchRequest) (w : World) :
  generate_in_background research_request = false →
  generate_report research_request w
  = (write_report research_request
       (make_research_id (clock w) (task research_request)) ≫= λ response,
     mret (Json 200 response)) w.
Proof.
  intros Hbg. unfold generate_report.
  erewrite bind_return; [|unfold gets; reflexivity].
  by rewrite Hbg.
Qed.

(** The run of [write_report] from the call of [run_agent] on, when
    nothing raises. *)
Lemma write_report_completed (research_request : ResearchRequest)
    (research_id : string) (w w1 : World) (args : AgentArgs Tone)
    (report : string) (researcher : Researcher) (docx_path pdf_path : string)
    (o2 o3 o4 : OS) :
  run_agent_arguments research_request w = (Return args, w1) →
  run_agent args (os w1) = (Return (report, researcher), o2) →
  write_md_to_word report research_id o2 = (Return docx_path, o3) →
  write_md_to_pdf report research_id o3 = (Return pdf_path, o4) →
  ∃ body w',
    write_report research_request research_id w = (Return body, w')
    ∧ os w' = o4
    ∧ jget "research_id" body = Some (JStr research_id)
    ∧ jget "docx_path" body = Some (JStr docx_path)
    ∧ jget "pdf_path" body = Some (JStr pdf_path)
    ∧ (report_type research_request ≠ "multi_agents" →
       jget "report" body = Some (JStr report)
       ∧ jget "research_information" body
         = Some (JObj
             [("source_urls", JList (JStr <$> get_source_urls researcher));
              ("research_costs", JNum (get_costs researcher));
              ("visited_urls", JList (JStr <$> elements (visited_urls researcher)));
              ("research_images", JList (JStr <$> get_research_images researcher))]))
    ∧ (report_type research_request = "multi_agents" →
       jget "report" body = Some (JStr "")
       ∧ jget "research_information" body = None).
Proof.
  intros Hargs Hagent Hword Hpdf. unfold write_report.
  erewrite bind_return by exact Hargs.
  erewrite bind_return; [|unfold call_run_agent; rewrite Hagent; reflexivity].
  erewrite bind_return; [|unfold on_os; simpl; rewrite Hword; reflexivity].
  erewrite bind_return; [|unfold on_os; simpl; rewrite Hpdf; reflexivity].
  destruct (decide (report_type research_request = "multi_agents")) as [Hm|Hm].
  - rewrite (bool_decide_eq_true_2 _ Hm). simpl.
    eexists _, _. split; [reflexivity|]. repeat split; done.
  - rewrite (bool_decide_eq_false_2 _ Hm). simpl.
    eexists _, _. split; [reflexivity|]. repeat split; done.
Qed.

(** C7, as the code has it.  In foreground mode [generate_report] is
    [write_report] run to its end: an exception of [write_report], and so
    one of [run_agent], reaches the caller, and a returned body is the
    response.  The body of a completed job has the identity and the two
    artifact paths; for a report type other than ["multi_agents"] it has
    the report text and, under ["research_information"], the source URLs,
    the costs, the visited URLs and the images; for ["multi_agents"] its
    report text is empty and it has no ["research_information"]. *)
Theorem generate_report_foreground_result
    (research_request : ResearchRequest) (w : World) :
  generate_in_background research_request = false →
  let research_id := make_research_id (clock w) (task research_request) in
  (∀ e w', write_report research_request research_id w = (Raise e, w') →
           generate_report research_request w = (Raise e, w'))
  ∧ (∀ body w', write_report research_request research_id w = (Return body, w') →
                generate_report research_request w = (Return (Json 200 body), w'))
  ∧ (∀ args w1,
       run_agent_arguments research_request w = (Return args, w1) →
       (∀ e o2, run_agent args (os w1) = (Raise e, o2) →
                ∃ w', generate_report research_request w = (Raise e, w'))
       ∧ (∀ report researcher docx_path pdf_path o2 o3 o4,
            run_agent args (os w1) = (Return (report, researcher), o2) →
            write_md_to_word report research_id o2 = (Return docx_path, o3) →
            write_md_to_pdf report research_id o3 = (Return pdf_path, o4) →
            ∃ body w',
              generate_report research_request w = (Return (Json 200 body), w')
              ∧ os w' = o4
              ∧ jget "research_id" body = Some (JStr research_id)
              ∧ jget "docx_path" body = Some (JStr docx_path)
              ∧ jget "pdf_path" body = Some (JStr pdf_path)
              ∧ (report_type research_request ≠ "multi_agents" →
                 jget "report" body = Some (JStr report)
                 ∧ jget "research_information" body
                   = Some (JObj
                       [("source_urls", JList (JStr <$> get_source_urls researcher));
                        ("research_costs", JNum (get_costs researcher));
                        ("visited_urls",
                         JList (JStr <$> elements (visited_urls researcher)));
                        ("research_images",
                         JList (JStr <$> get_research_images researcher))]))
              ∧ (report_type research_request = "multi_agents" →
                 jget "report" body = Some (JStr "")
                 ∧ jget "research_information" body = None))).
Proof.
  intros Hbg research_id.
  pose proof (generate_report_foreground_eq research_request w Hbg) as Heq.
  fold research_id in Heq.
  assert (∀ e w', write_report research_request research_id w = (Raise e, w') →
                  generate_report research_request w = (Raise e, w')) as Hraise.
  { intros e w' Hw. rewrite Heq. by erewrite bind_raise. }
  assert (∀ body w', write_report research_request research_id w = (Return body, w') →
                     generate_report research_request w = (Return (Json 200 body), w'))
    as Hreturn.
  { intros body w' Hw. rewrite Heq. by erewrite bind_return. }
  split; [exact Hraise|]. split; [exact Hreturn|].
  intros args w1 Hargs. split.
  - intros e o2 Hagent. eexists. apply Hraise.
    unfold write_report. erewrite bind_return by exact Hargs.
    erewrite bind_raise; [reflexivity|].
    unfold call_run_agent. rewrite Hagent. reflexivity.
  - intros report researcher docx_path pdf_path o2 o3 o4 Hagent Hword Hpdf.
    destruct (write_report_completed research_request research_id w w1 args
                report researcher docx_path pdf_path o2 o3 o4
                Hargs Hagent Hword Hpdf) as (body & w' & Hw & Hrest).
    exists body, w'. split; [by apply Hreturn|exact Hrest].
Qed.

(** C4, as the code has it.  Before it calls [run_agent], [write_report]
    writes to the environment of the process: with a knowledge base it
    sets [DOC_PATH] to the [docs] directory of the knowledge base, with a
    tuning dictionary it sets [DEEP_RESEARCH_DEPTH] and
    [DEEP_RESEARCH_BREADTH]; [run_agent] is called in that environment.
    It changes no other variable, nothing on the filesystem, and, with
    neither a knowledge base nor a tuning dictionary, nothing at all. *)
Theorem write_report_configures_the_environment
    (research_request : ResearchRequest) (research_id : string)
    (w w1 : World) (args : AgentArgs Tone) :
  run_agent_arguments research_request w = (Return args, w1) →
  agent_runs (write_report research_request research_id w).2
  = (args, environ (os w1)) :: agent_runs w
  ∧ (∀ name, knowledge_base research_request = Some name → name ≠ "" →
       environ (os w1) !! "DOC_PATH"
       = Some (Py.os_path_join
                 (Py.os_path_join
                    (Os.environ_get (os w) "VECTOR_STORE_PATH" "vector_store") name)
                 "docs"))
  ∧ (∀ config, deep_research_config research_request = Some config → config ≠ ∅ →
       environ (os w1) !! "DEEP_RESEARCH_DEPTH"
       = Some (Py.str (Py.dict_get config "max_iterations" (Py.VInt 2)))
       ∧ environ (os w1) !! "DEEP_RESEARCH_BREADTH"
         = Some (Py.str (Py.dict_get config "max_search_results_per_query" (Py.VInt 4))))
  ∧ (∀ key, ¬ configured key → environ (os w1) !! key = environ (os w) !! key)
  ∧ fs (os w1) = fs (os w)
  ∧ (Py.truthy_str (knowledge_base research_request) = false →
     Py.truthy_dict (deep_research_config research_request) = false →
     w1 = w).
Proof.
  intros Hargs.
  destruct (run_agent_arguments_frame _ _ _ _ Hargs) as (Hfs & _ & _ & _ & Hr & Hframe).
  split; [|split; [|split; [|split; [|split]]]].
  - rewrite (write_report_calls_run_agent _ _ _ _ _ Hargs). by rewrite Hr.
  - intros name Hkb Hname.
    by destruct (run_agent_arguments_knowledge_base _ _ _ _ _ Hargs Hkb Hname).
  - intros config Hcfg Hne.
    exact (run_agent_arguments_deep_research _ _ _ _ _ Hargs Hcfg Hne).
  - exact Hframe.
  - exact Hfs.
  - intros Hkb Hcfg. by eapply run_agent_arguments_plain.
Qed.

End Foreground.

Section KnowledgeBases.

Context `{Collaborators}.

Import FS FSFacts PathFacts OsFacts.

(** The run of [upload_file] for a name that is not empty. *)
Lemma upload_file_steps (file : UploadFile) (name : string) (w : World) :
  name ≠ "" →
  upload_file file name w
  = (on_os (λ o, Os.makedirs o
              (Py.os_path_join
                 (Py.os_path_join
                    (Os.environ_get (os w) "VECTOR_STORE_PATH" "vector_store") name)
                 "docs")) ≫= λ _,
     on_os (handle_file_upload file
              (Py.os_path_join
                 (Py.os_path_join
                    (Os.environ_get (os w) "VECTOR_STORE_PATH" "vector_store") name)
                 "docs")) ≫= λ result,
     mret (Json 200 result)) w.
Proof.
  intros Hname. unfold upload_file. rewrite (bool_decide_eq_false_2 _ Hname).
  erewrite bind_return; [|unfold gets; reflexivity]. reflexivity.
Qed.

(** The route that [startup_event] mounts. *)
Definition outputs_route : Mount :=
  {| mount_path := "/outputs"; mount_directory := "outputs"; mount_name := "outputs" |}.

(** When [startup_event] has returned, [outputs] and the root of the
    knowledge bases are directories and [/outputs] has been mounted; the
    root is not the empty path, on which [os.makedirs] fails. *)
Lemma startup_event_makes_the_roots (w w' : World) :
  startup_event w = (Return tt, w') →
  let root := Os.environ_get (os w) "VECTOR_STORE_PATH" "vector_store" in
  root ≠ ""
  ∧ Os.path_isdir (os w') root = true
  ∧ Os.path_isdir (os w') "outputs" = true
  ∧ environ (os w') = environ (os w)
  ∧ routes w' = routes w ++ [outputs_route]
  ∧ clock w' = clock w
  ∧ background_tasks w' = background_tasks w
  ∧ agent_runs w' = agent_runs w.
Proof.
  intros Hrun root. unfold startup_event in Hrun.
  apply bind_inv in Hrun as [([] & w1 & Hout & Hrun)|(e & _ & [=])].
  rewrite on_os_eq in Hout. injection Hout as Hout <-.
  destruct (Os.makedirs (os w) "outputs") as [r1 o1] eqn:Hmk1.
  simpl in Hout. subst r1.
  destruct (makedirs_returns _ _ _ Hmk1) as (Hdir1 & _ & _ & Henv1 & Hcwd1).
  apply bind_inv in Hrun as [([] & w2 & Hmount & Hrun)|(e & _ & [=])].
  unfold app_mount in Hmount.
  erewrite bind_return in Hmount; [|unfold gets; reflexivity].
  cbn [os with_os snd] in Hmount. rewrite Hdir1 in Hmount.
  injection Hmount as <-.
  erewrite bind_return in Hrun; [|unfold gets; reflexivity].
  rewrite on_os_eq in Hrun. injection Hrun as Hroot <-.
  cbn [os with_os with_route snd] in *.
  assert (Os.environ_get o1 "VECTOR_STORE_PATH" "vector_store" = root) as Hsame
    by (unfold root, Os.environ_get; by rewrite Henv1).
  rewrite Hsame in *.
  destruct (Os.makedirs o1 root) as [r2 o2] eqn:Hmk2. simpl in Hroot. subst r2.
  destruct (makedirs_returns _ _ _ Hmk2) as (Hdir2 & _ & Hg & Henv2 & Hcwd2).
  cbn [snd]. split; [|split; [done|split; [|split; [congruence|done]]]].
  - intros Hempty. rewrite Hempty in Hmk2. unfold Os.makedirs in Hmk2.
    simpl in Hmk2. discriminate.
  - apply (path_isdir_mono o1); [done| |done].
    intros l. by apply grows_is_dir.
Qed.


Lemma knowledge_base_directories_spec (o : OS) :
  ∃ directories,
    knowledge_base_directories o = Return directories
    ∧ NoDup directories
    ∧ ∀ d, d ∈ directories ↔
        ∃ entries,
          Os.node_at o (Os.environ_get o "VECTOR_STORE_PATH" "vector_store")
          = Some (Dir entries)
          ∧ is_Some (entries !! d)
          ∧ Os.path_isdir o
              (Py.os_path_join (Os.environ_get o "VECTOR_STORE_PATH" "vector_store") d)
            = true.
Proof.
  unfold knowledge_base_directories, Os.listdir, Os.path_isdir at 1.
  destruct (Os.node_at o _) as [[c|entries]|] eqn:Hroot; simpl.
  - exists []. split; [done|]. split; [constructor|].
    intros d. split; [by intros ?%elem_of_nil|by intros (? & [=] & _)].
  - eexists. split; [reflexivity|]. split.
    + apply NoDup_filter, NoDup_fst_map_to_list.
    + intros d. rewrite list_elem_of_filter, list_elem_of_fmap. split.
      * intros [Hd ([d' x] & -> & Hx%elem_of_map_to_list)].
        exists entries. by eauto.
      * intros (entries' & [= <-] & [x Hx] & Hd). split; [done|].
        exists (d, x). split; [done|]. by apply elem_of_map_to_list.
  - exists []. split; [done|]. split; [constructor|].
    intros d. split; [by intros ?%elem_of_nil|by intros (? & [=] & _)].
Qed.




End KnowledgeBases.

(** * Facts about the sanitizer of the specification *)

Module SanitizeFacts.
Import FS PathFacts Model.

Lemma length_app (a b : string) :
  String.length (a +:+ b) = (String.length a + String.length b)%nat.
Proof. induction a as [|x a IH]; simpl; [done|]. by rewrite IH. Qed.

Lemma sanitize_app (a b : string) :
  sanitize_filename (a +:+ b) = sanitize_filename a +:+ sanitize_filename b.
Proof.
  induction a as [|x a IH]; simpl; [done|].
  destruct (storage_safe x); simpl; by rewrite IH.
Qed.



Lemma sanitize_digits (d : Decimal.uint) :
  sanitize_filename (NilEmpty.string_of_uint d) = NilEmpty.string_of_uint d.
Proof.
  induction d as [|d IH|d IH|d IH|d IH|d IH|d IH|d IH|d IH|d IH|d IH];
    [done|..]; cbn [NilEmpty.string_of_uint sanitize_filename];
    (rewrite IH; reflexivity).
Qed.

Lemma sanitize_numeral (d : Decimal.uint) :
  sanitize_filename (NilZero.string_of_uint d) = NilZero.string_of_uint d.
Proof. destruct d; [reflexivity|apply sanitize_digits..]. Qed.

Lemma sanitize_str_int (z : Z) : sanitize_filename (Py.str_int z) = Py.str_int z.
Proof.
  unfold Py.str_int, NilZero.string_of_int.
  destruct (Z.to_int z) as [d|d]; [apply sanitize_numeral|].
  change (String "-" (sanitize_filename (NilZero.string_of_uint d))
          = String "-" (NilZero.string_of_uint d)).
  by rewrite sanitize_numeral.
Qed.

(** The sanitizer keeps the frame [task_<seconds>_] of a key and cleans
    the task in it. *)
Lemma sanitize_job_key (now : Q) (text : string) :
  sanitize_filename (job_key now text) = job_key now (sanitize_filename text).
Proof.
  unfold job_key. rewrite !sanitize_app, sanitize_str_int. reflexivity.
Qed.



End SanitizeFacts.

Section Identity.

Context `{Collaborators}.

Hypothesis sanitize_filename_spec : ∀ s, sanitize_filename s = Model.sanitize_filename s.

(** The identity in a response of [generate_report], with the sanitizer of
    the specification: [task_<seconds>_<task>] for the whole second of the
    submission and the task without its unsafe characters. *)
Lemma research_id_in_second (research_request : ResearchRequest) (w w' : World)
    (status : Z) (body : json) (seconds : Z) :
  generate_report research_request w = (Return (Json status body), w') →
  in_second (clock w) seconds →
  jget "research_id" body
  = Some (JStr ("task_" +:+ Py.str_int seconds +:+ "_"
                +:+ Model.sanitize_filename (task research_request))).
Proof.
  intros Hrun Hs. apply generate_report_research_id in Hrun.
  unfold make_research_id in Hrun.
  rewrite sanitize_filename_spec, SanitizeFacts.sanitize_job_key in Hrun.
  unfold job_key in Hrun.
  by rewrite (KeyFacts.int_of_float_in_second _ _ Hs) in Hrun.
Qed.

(** C1, as the code has it.  The identity of a job is made from the whole
    second of the submission and the task, and from nothing else: it is
    [task_<seconds>_<task>] with the unsafe characters of the task removed.
    Two submissions receive the same identity exactly when they fall in the
    same whole second and their tasks are the same once sanitized.  So
    submissions in different seconds always receive different identities,
    and two submissions of one task in one second receive the same. *)
Theorem job_identity_by_second_and_task
    (request1 request2 : ResearchRequest) (w1 w2 w1' w2' : World)
    (status1 status2 : Z) (body1 body2 : json) (seconds1 seconds2 : Z) :
  generate_report request1 w1 = (Return (Json status1 body1), w1') →
  generate_report request2 w2 = (Return (Json status2 body2), w2') →
  in_second (clock w1) seconds1 →
  in_second (clock w2) seconds2 →
  ∃ id1 id2,
    jget "research_id" body1 = Some (JStr id1)
    ∧ jget "research_id" body2 = Some (JStr id2)
    ∧ id1 = "task_" +:+ Py.str_int seconds1 +:+ "_"
            +:+ Model.sanitize_filename (task request1)
    ∧ id2 = "task_" +:+ Py.str_int seconds2 +:+ "_"
            +:+ Model.sanitize_filename (task request2)
    ∧ (id1 = id2
       ↔ seconds1 = seconds2
         ∧ Model.sanitize_filename (task request1)
           = Model.sanitize_filename (task request2))
    ∧ (seconds1 ≠ seconds2 → id1 ≠ id2)
    ∧ (seconds1 = seconds2 → task request1 = task request2 → id1 = id2).
Proof.
  intros Hrun1 Hrun2 Hs1 Hs2.
  pose proof (research_id_in_second _ _ _ _ _ _ Hrun1 Hs1) as Hid1.
  pose proof (research_id_in_second _ _ _ _ _ _ Hrun2 Hs2) as Hid2.
  eexists _, _. split; [exact Hid1|]. split; [exact Hid2|].
  split; [reflexivity|]. split; [reflexivity|].
  split; [apply KeyFacts.key_format_inj|]. split.
  - intros Hne Heq. by apply KeyFacts.key_format_inj in Heq as [Hs _].
  - intros -> ->. reflexivity.
Qed.


End Identity.

(** * Facts about the collaborators of the specification *)

Module ModelFacts.
Import FS FSFacts.



End ModelFacts.

(** * Concrete runs *)

Section Runs.

(** Where C1 fails: the same task submitted at 1000.2 s and at 1000.7 s is
    given the same identity, [task_1000_foo], both times. *)
Lemma same_second_same_identity :
  ¬ (clock Model.early == clock Model.late)%Q
  ∧ (generate_report Model.foo Model.early).1
    = Return (Json 200 (JObj [("message", JStr queued_message);
                              ("research_id", JStr "task_1000_foo")]))
  ∧ (generate_report Model.foo Model.late).1
    = Return (Json 200 (JObj [("message", JStr queued_message);
                              ("research_id", JStr "task_1000_foo")])).
Proof.
  split; [|split]; [|reflexivity..].
  unfold Qeq. simpl. lia.
Qed.

(** The same task submitted at 1000.2 s, at 1000.7 s and at 1001.3 s,
    through the general statement: one identity for the first two, another
    for the third. *)
Lemma job_identity_by_second_and_task_witness :
  (∃ id1 id2,
     (generate_report Model.foo Model.early).1
     = Return (Json 200 (JObj [("message", JStr queued_message); ("research_id", JStr id1)]))
     ∧ (generate_report Model.foo Model.late).1
       = Return (Json 200 (JObj [("message", JStr queued_message);
                                 ("research_id", JStr id2)]))
     ∧ id1 = "task_1000_foo" ∧ id1 = id2)
  ∧ (∃ id1 id3,
       (generate_report Model.foo Model.next_second).1
       = Return (Json 200 (JObj [("message", JStr queued_message);
                                 ("research_id", JStr id3)]))
       ∧ id1 = "task_1000_foo" ∧ id3 = "task_1001_foo" ∧ id1 ≠ id3).
Proof.
  assert (in_second (clock Model.early) 1000) as Hearly
    by (unfold in_second, Qle, Qlt; simpl; lia).
  assert (in_second (clock Model.late) 1000) as Hlate
    by (unfold in_second, Qle, Qlt; simpl; lia).
  assert (in_second (clock Model.next_second) 1001) as Hnext
    by (unfold in_second, Qle, Qlt; simpl; lia).
  split.
  - destruct (job_identity_by_second_and_task (H := Model.collaborators)
                (λ s, eq_refl) Model.foo Model.foo Model.early Model.late
                (generate_report Model.foo Model.early).2
                (generate_report Model.foo Model.late).2 200 200
                (JObj [("message", JStr queued_message);
                       ("research_id", JStr "task_1000_foo")])
                (JObj [("message", JStr queued_message);
                       ("research_id", JStr "task_1000_foo")])
                1000 1000 eq_refl eq_refl Hearly Hlate)
      as (id1 & id2 & _ & _ & Hkey1 & Hkey2 & _ & _ & Hsame).
    exists id1, id2. rewrite Hkey1 at 1. rewrite Hkey2 at 1.
    split; [reflexivity|]. split; [reflexivity|]. split; [exact Hkey1|].
    apply Hsame; reflexivity.
  - destruct (job_identity_by_second_and_task (H := Model.collaborators)
                (λ s, eq_refl) Model.foo Model.foo Model.early Model.next_second
                (generate_report Model.foo Model.early).2
                (generate_report Model.foo Model.next_second).2 200 200
                (JObj [("message", JStr queued_message);
                       ("research_id", JStr "task_1000_foo")])
                (JObj [("message", JStr queued_message);
                       ("research_id", JStr "task_1001_foo")])
                1000 1001 eq_refl eq_refl Hearly Hnext)
      as (id1 & id3 & _ & _ & Hkey1 & Hkey3 & _ & Hdiffer & _).
    exists id1, id3. rewrite Hkey3 at 1.
    split; [reflexivity|]. split; [exact Hkey1|]. split; [exact Hkey3|].
    apply Hdiffer. discriminate.
Defined.

(** Where C2 fails: a background submission with the tone ["Sarcastic"],
    which is no member of the enumeration, is acknowledged as queued. *)
Lemma unknown_tone_is_queued :
  Tone_getitem (tone Model.foo_sarcastic) = None
  ∧ generate_in_background Model.foo_sarcastic = true
  ∧ (generate_report Model.foo_sarcastic Model.early).1
    = Return (Json 200 (JObj [("message", JStr queued_message);
                              ("research_id", JStr "task_1000_foo")]))
  ∧ background_tasks (generate_report Model.foo_sarcastic Model.early).2
    = [(Model.foo_sarcastic, "task_1000_foo")].
Proof. repeat split; reflexivity. Qed.

(** The same submission, through the general statement: queued first, and
    the run of the queued task raises without a call of [run_agent]. *)
Lemma unknown_tone_is_found_by_write_report_witness :
  Tone_getitem (tone Model.foo_sarcastic) = None
  ∧ ∃ w' e w'',
      generate_report Model.foo_sarcastic Model.early
      = (Return (Json 200 (JObj [("message", JStr queued_message);
                                 ("research_id", JStr "task_1000_foo")])), w')
      ∧ run_background_tasks w' = (Raise e, w'')
      ∧ agent_runs w'' = [].
Proof.
  split; [reflexivity|].
  destruct (unknown_tone_is_found_by_write_report Model.foo_sarcastic Model.early
              eq_refl) as [_ Hbg].
  destruct (Hbg eq_refl) as (w' & Hrun & _ & Hlater).
  destruct (Hlater eq_refl) as (e & w'' & Hraise & _ & Hruns).
  exists w', e, w''. split; [exact Hrun|]. split; [exact Hraise|exact Hruns].
Defined.

(** A background submission of [foo]: queued with no call of [run_agent],
    which is called once when the tasks of the request are run. *)
Lemma generate_report_background_is_queued_witness :
  generate_in_background Model.foo = true
  ∧ ∃ w',
      generate_report Model.foo Model.early
      = (Return
           (Json 200
              (JObj [("message",
                      JStr "Your report is being generated in the background. Please check back later.");
                     ("research_id", JStr "task_1000_foo")])),
         w')
      ∧ agent_runs w' = []
      ∧ os w' = Model.srv
      ∧ length (agent_runs (run_background_tasks w').2) = 1%nat.
Proof.
  split; [reflexivity|].
  destruct (generate_report_background_is_queued Model.foo Model.early eq_refl)
    as (w' & Hrun & _ & Hruns & Hos & _ & Hlater).
  exists w'. split; [exact Hrun|]. split; [exact Hruns|]. split; [exact Hos|].
  assert (w' = (generate_report Model.foo Model.early).2) as Hw'
    by (rewrite Hrun; reflexivity).
  rewrite (Hlater eq_refl
             {| arg_task := "foo";
                arg_report_type := "research_report";
                arg_report_source := "web";
                arg_source_urls := [];
                arg_document_urls := [];
                arg_tone := Model.Objective;
                arg_headers := None;
                arg_query_domains := [];
                arg_config_path := "";
                arg_vector_store_path := None;
                arg_return_researcher := true |}
             (without_tasks w')).
  - reflexivity.
  - rewrite Hw'. reflexivity.
Defined.

(** Where C4 fails: [write_report] for a job with the knowledge base
    ["kb1"] sets [DOC_PATH], which was not set; the computation of a later
    job without a knowledge base then runs with that path in its
    environment; and when a job with ["kb2"] has evaluated its arguments
    after the one with ["kb1"], the path in the environment is that of
    ["kb2"]. *)
Lemma write_report_changes_the_environment :
  let after_kb1 := (write_report Model.foo_kb1 "task_1000_foo" Model.early).2 in
  let after_foo := (write_report Model.foo_foreground "task_1001_foo" after_kb1).2 in
  let overlapped :=
    (run_agent_arguments Model.foo_kb2 (run_agent_arguments Model.foo_kb1 Model.early).2).2 in
  environ (os Model.early) !! "DOC_PATH" = None
  ∧ environ (os after_kb1) !! "DOC_PATH" = Some "vector_store/kb1/docs"
  ∧ (head (agent_runs after_foo) ≫= λ run, run.2 !! "DOC_PATH")
    = Some "vector_store/kb1/docs"
  ∧ environ (os overlapped) !! "DOC_PATH" = Some "vector_store/kb2/docs".
Proof. repeat split; reflexivity. Qed.

(** The job with the knowledge base ["kb1"], through the general
    statement: [run_agent] is called with [DOC_PATH] set. *)
Lemma write_report_configures_the_environment_witness :
  ∃ args w1,
    run_agent_arguments Model.foo_kb1 Model.early = (Return args, w1)
    ∧ environ (os w1) !! "DOC_PATH" = Some "vector_store/kb1/docs"
    ∧ agent_runs (write_report Model.foo_kb1 "task_1000_foo" Model.early).2
      = [(args, environ (os w1))].
Proof.
  pose (args := {| arg_task := "foo";
                   arg_report_type := "research_report";
                   arg_report_source := "web";
                   arg_source_urls := [];
                   arg_document_urls := [];
                   arg_tone := Model.Objective;
                   arg_headers := None;
                   arg_query_domains := [];
                   arg_config_path := "";
                   arg_vector_store_path := Some "vector_store/kb1";
                   arg_return_researcher := true |} : AgentArgs Tone).
  pose (w1 := (run_agent_arguments Model.foo_kb1 Model.early).2).
  assert (run_agent_arguments Model.foo_kb1 Model.early = (Return args, w1)) as Hargs
    by reflexivity.
  destruct (write_report_configures_the_environment Model.foo_kb1 "task_1000_foo"
              Model.early w1 args Hargs) as (Hruns & Hkb & _).
  exists args, w1. split; [exact Hargs|]. split; [|exact Hruns].
  apply (Hkb "kb1"); [reflexivity|discriminate].
Defined.

(** Where C7 fails: the job for the report type ["multi_agents"] is
    completed, its report is in the artifact, and the body of the
    response has an empty report text and no ["research_information"]. *)
Lemma multi_agents_report_is_empty :
  generate_in_background Model.foo_multi_agents = false
  ∧ (generate_report Model.foo_multi_agents Model.early).1
    = Return (Json 200 (JObj [("research_id", JStr "task_1000_foo");
                              ("report", JStr "");
                              ("docx_path", JStr "outputs/task_1000_foo.docx");
                              ("pdf_path", JStr "outputs/task_1000_foo.pdf")]))
  ∧ Os.node_at (os (generate_report Model.foo_multi_agents Model.early).2)
      "outputs/task_1000_foo.docx"
    = Some (FS.File "Report on foo").
Proof. repeat split; reflexivity. Qed.

(** A foreground submission of [foo]: the body has the report text and the
    path of the artifact. *)
Lemma generate_report_foreground_result_witness :
  generate_in_background Model.foo_foreground = false
  ∧ ∃ body w',
      generate_report Model.foo_foreground Model.early = (Return (Json 200 body), w')
      ∧ jget "report" body = Some (JStr "Report on foo")
      ∧ jget "docx_path" body = Some (JStr "outputs/task_1000_foo.docx").
Proof.
  split; [reflexivity|].
  pose (args := {| arg_task := "foo";
                   arg_report_type := "research_report";
                   arg_report_source := "web";
                   arg_source_urls := [];
                   arg_document_urls := [];
                   arg_tone := Model.Objective;
                   arg_headers := None;
                   arg_query_domains := [];
                   arg_config_path := "";
                   arg_vector_store_path := None;
                   arg_return_researcher := true |} : AgentArgs Tone).
  pose (researcher := {| get_source_urls := ["https://example.org/a"];
                         get_costs := (3 # 100)%Q;
                         visited_urls := {["https://example.org/a"]};
                         get_research_images := [] |}).
  pose (o3 := (Model.render ".docx" "Report on foo" "task_1000_foo" Model.srv).2).
  pose (o4 := (Model.render ".pdf" "Report on foo" "task_1000_foo" o3).2).
  destruct (generate_report_foreground_result Model.foo_foreground Model.early eq_refl)
    as (_ & _ & Hrun).
  destruct (Hrun args Model.early eq_refl) as [_ Hdone].
  destruct (Hdone "Report on foo" researcher "outputs/task_1000_foo.docx"
              "outputs/task_1000_foo.pdf" Model.srv o3 o4 eq_refl eq_refl eq_refl)
    as (body & w' & Hbody & _ & _ & Hdocx & _ & Hreport & _).
  exists body, w'. split; [exact Hbody|]. split; [|exact Hdocx].
  apply Hreport. discriminate.
Defined.

(** Where C5 fails: an upload to the knowledge base ["../outputs/x.docx"]
    makes the directory [outputs/x.docx]; [read_report] for ["x"] then
    finds that the path exists and answers with a file response, not with
    the message, and sending that response raises. *)
Lemma report_path_can_be_a_directory :
  let uploaded := upload_file Model.notes "../outputs/x.docx" Model.early in
  uploaded.1
  = Return (Json 200 (JObj [("filename", JStr "notes.txt");
                            ("path",
                             JStr "vector_store/../outputs/x.docx/docs/notes.txt")]))
  ∧ Os.path_exists (os Model.early) "outputs/x.docx" = false
  ∧ Os.path_isdir (os uploaded.2) "outputs/x.docx" = true
  ∧ read_report "x" uploaded.2 = (Return (FileResponse "outputs/x.docx"), uploaded.2)
  ∧ (read_report "x" uploaded.2).1
    ≠ Return (Json 200 (JObj [("message", JStr "Report not found.")]))
  ∧ send (os uploaded.2) (FileResponse "outputs/x.docx")
    = Raise (RuntimeError "outputs/x.docx").
Proof.
  intros uploaded.
  assert (read_report "x" uploaded.2
          = (Return (FileResponse "outputs/x.docx"), uploaded.2)) as Hread
    by reflexivity.
  split; [reflexivity|]. split; [reflexivity|]. split; [reflexivity|].
  split; [exact Hread|]. split; [|reflexivity].
  rewrite Hread. discriminate.
Qed.

(** [read_report] where the artifact is there, where nothing is, and where
    a directory is. *)
Lemma read_report_artifact_or_not_found_witness :
  (read_report "task_1000_foo" (Model.world_at 0 Model.srv_reported)
   = (Return (FileResponse "outputs/task_1000_foo.docx"),
      Model.world_at 0 Model.srv_reported)
   ∧ send Model.srv_reported (FileResponse "outputs/task_1000_foo.docx")
     = Return (200, inr "Report on foo"))
  ∧ read_report "task_1000_foo" Model.early
    = (Return (Json 200 (JObj [("message", JStr "Report not found.")])), Model.early)
  ∧ send Model.srv_occupied (FileResponse "outputs/task_1000_foo.docx")
    = Raise (RuntimeError "outputs/task_1000_foo.docx").
Proof.
  destruct (read_report_artifact_or_not_found "task_1000_foo"
              (Model.world_at 0 Model.srv_reported)) as (_ & Hfile & _).
  destruct (read_report_artifact_or_not_found "task_1000_foo" Model.early)
    as (_ & _ & Hnone & _).
  destruct (read_report_artifact_or_not_found "task_1000_foo"
              (Model.world_at 0 Model.srv_occupied))
    as (_ & _ & _ & _ & Hdir).
  split; [apply (Hfile "Report on foo"); reflexivity|].
  split; [apply Hnone; reflexivity|].
  apply (Hdir ∅). reflexivity.
Defined.






End Runs.

(** * More of the server: [list_files] and [get_models] *)

(** What [requests] gives [get_models]: an exception is a
    [requests.exceptions.RequestException], with the text [str(e)], or an
    exception of another class. *)
Inductive request_failure :=
  | RequestException (text : string)
  | OtherException (text : string).

(** The three calls of [get_models] into [requests]: [requests.get(url)],
    [response.raise_for_status()] and [response.json()]. *)
Class Requests := {
  http_response : Type;
  requests_get : string → request_failure + http_response;
  raise_for_status : http_response → option request_failure;
  response_json : http_response → request_failure + json;
}.

Section MoreHandlers.

Context `{Collaborators}.

(** The module constant [DOC_PATH = os.getenv("DOC_PATH", "./my-docs")]:
    it is read once, in the environment in which the module is imported. *)
Definition DOC_PATH (at_import : OS) : string :=
  Os.environ_get at_import "DOC_PATH" "./my-docs".

(** *** [list_files]; [doc_path] is the module constant (the [print] of the
    handler goes to the standard output and is left out). *)
Definition list_files (doc_path : string) : M response :=
  found ← gets (λ w, Os.path_exists (os w) doc_path);
  (if negb found then on_os (λ o, Os.makedirs o doc_path) else mret tt) ;;
  files ← on_os (λ o, (Os.listdir o doc_path, o));
  mret (Json 200 (JObj [("files", JList (JStr <$> files))])).

(** *** [get_models]

    [models.get("data", [])] on the parsed body: an object gives the value
    of its key or the empty list, anything else has no [get]
    ([AttributeError]). *)
Definition models_get_data (models : json) : request_failure + json :=
  match models with
  | JObj _ => inr (default (JList []) (jget "data" models))
  | _ => inl (OtherException "AttributeError")
  end.

(** The body of the [try]. *)
Definition fetch_models `{Requests} (o : OS) : request_failure + json :=
  let base_url := Os.environ_get o "OPENAI_BASE_URL" "http://localhost:1234/v1" in
  match requests_get (base_url +:+ "/models") with
  | inl e => inl e
  | inr response =>
      match raise_for_status response with
      | Some e => inl e
      | None =>
          match response_json response with
          | inl e => inl e
          | inr models =>
              match models_get_data models with
              | inl e => inl e
              | inr data => inr (JObj [("models", data)])
              end
          end
      end
  end.

(** [except requests.exceptions.RequestException as e] catches the first
    class of exceptions and lets the other through. *)
Definition get_models `{Requests} (o : OS) : request_failure + response :=
  match fetch_models o with
  | inr body => inr (Json 200 body)
  | inl (RequestException text) => inr (Json 500 (JObj [("error", JStr text)]))
  | inl (OtherException text) => inl (OtherException text)
  end.

End MoreHandlers.

(** * [list_files] *)

Section ListFiles.

Context `{Collaborators}.

Import FS FSFacts PathFacts OsFacts FSMore.

(** X1. When the document directory exists, [list_files] leaves the state
    as it is and answers with the names of all its entries, files and
    directories alike, each once. *)
Theorem list_files_lists_the_directory
    (doc_path : string) (w : World) (entries : gmap string node) :
  Os.node_at (os w) doc_path = Some (Dir entries) →
  ∃ files,
    list_files doc_path w
    = (Return (Json 200 (JObj [("files", JList (JStr <$> files))])), w)
    ∧ NoDup files
    ∧ ∀ d, d ∈ files ↔ is_Some (entries !! d).
Proof.
  intros Hnode. exists (map fst (map_to_list entries)). split; [|split].
  - unfold list_files.
    erewrite bind_return; [|unfold gets; reflexivity].
    unfold Os.path_exists. rewrite Hnode. simpl.
    erewrite bind_return; [|reflexivity].
    erewrite bind_return; [reflexivity|].
    unfold on_os, Os.listdir. rewrite Hnode. by rewrite with_os_same.
  - apply NoDup_fst_map_to_list.
  - intros d. rewrite list_elem_of_fmap. split.
    + intros ([d' x] & -> & Hx%elem_of_map_to_list). by eexists.
    + intros [x Hx]. exists (d, x). split; [done|]. by apply elem_of_map_to_list.
Qed.

(** X2. When nothing exists at the document path, [list_files] makes the
    directory, with the directories on the way to it, and answers with an
    empty list; this for a path without a [".."] component, on which
    [os.makedirs] returns. *)
Theorem list_files_makes_the_directory (doc_path : string) (w : World) (o1 : OS) :
  Os.path_exists (os w) doc_path = false →
  Forall (λ c, c ≠ "..") (split_sep doc_path) →
  Os.makedirs (os w) doc_path = (Return tt, o1) →
  list_files doc_path w
  = (Return (Json 200 (JObj [("files", JList [])])), with_os o1 w)
  ∧ Os.path_isdir o1 doc_path = true
  ∧ grows (fs (os w)) (fs o1).
Proof.
  intros Hnone Hup Hmk.
  destruct (makedirs_returns _ _ _ Hmk) as (Hdir & _ & Hg & _ & Hcwd).
  split; [|done].
  unfold list_files.
  erewrite bind_return; [|unfold gets; reflexivity].
  rewrite Hnone. simpl.
  erewrite bind_return; [|unfold on_os; rewrite Hmk; reflexivity].
  assert (Os.listdir o1 doc_path = Return []) as Hlist; last first.
  { rewrite (bind_return _ _ (with_os o1 w) (with_os o1 w) []); [reflexivity|].
    unfold on_os. simpl. rewrite Hlist. by destruct w. }
  unfold Os.makedirs in Hmk.
  destruct (contains "000"%char doc_path) eqn:Hnul; [done|].
  case_bool_decide as Hne; [done|].
  destruct (mkdirs (fs (os w)) (Os.origin (os w) doc_path) (split_sep doc_path))
    as [t|] eqn:Hm; [|done].
  injection Hmk as <-.
  pose proof (mkdirs_start _ _ _ _ (split_sep_nonempty doc_path) Hm) as Hstart.
  destruct (mkdirs_walk _ _ _ _ Hm Hstart) as (lf & Hw & _ & _).
  pose proof (walk_names _ _ Hup _ _ Hw) as ->.
  assert (kind_at (fs (os w)) (Os.origin (os w) doc_path ++ names (split_sep doc_path))
          = Missing) as Hmiss.
  { eapply unresolved_is_missing; [exact Hup|exact Hstart|exact Hm|].
    unfold Os.path_exists, Os.node_at, Os.locate, Os.unusable in Hnone.
    rewrite (bool_decide_eq_false_2 _ Hne), Hnul in Hnone. simpl in Hnone.
    by destruct (walk _ _ _ ≫= _). }
  assert (lookup_node (Os.origin (os w) doc_path ++ names (split_sep doc_path)) t
          = Some (Dir ∅)) as Hfresh.
  { eapply mkdirs_fresh; [exact Hup|exact Hm|].
    destruct (decide (names (split_sep doc_path) = [])) as [Hn|Hn]; [|by left].
    rewrite Hn, app_nil_r in Hmiss. apply is_dir_kind in Hstart. congruence. }
  unfold Os.listdir, Os.node_at, Os.locate, Os.unusable, Os.origin in *. simpl.
  rewrite (bool_decide_eq_false_2 _ Hne), Hnul. simpl.
  rewrite Hw. simpl. rewrite Hfresh. by rewrite map_to_list_empty.
Qed.

(** X3. When the document path is a regular file, [list_files] makes
    nothing: [os.listdir] raises and the state is as it was. *)
Theorem list_files_on_a_regular_file (doc_path : string) (w : World) (content : string) :
  Os.node_at (os w) doc_path = Some (File content) →
  list_files doc_path w = (Raise (OSError doc_path), w).
Proof.
  intros Hnode. unfold list_files.
  erewrite bind_return; [|unfold gets; reflexivity].
  unfold Os.path_exists. rewrite Hnode. simpl.
  erewrite bind_return; [|reflexivity].
  erewrite bind_raise; [reflexivity|].
  unfold on_os, Os.listdir. rewrite Hnode. by rewrite with_os_same.
Qed.

End ListFiles.

(** * More about startup and uploads *)

Section Directories.

Context `{Collaborators}.

Import FS FSFacts PathFacts OsFacts FSMore.

(** X4. [startup_event] can be run again, but not without effect: when it
    has returned, [outputs] and the root of the knowledge bases are
    directories and the route [/outputs] has been added to the routes of
    the application; a second run returns and leaves the environment, the
    filesystem, the clock and the queue as they are, and it mounts
    [/outputs] once more. *)
Theorem startup_event_can_be_repeated (w w' : World) :
  startup_event w = (Return tt, w') →
  Os.path_isdir (os w') "outputs" = true
  ∧ Os.path_isdir (os w') (Os.environ_get (os w') "VECTOR_STORE_PATH" "vector_store")
    = true
  ∧ routes w'
    = routes w ++ [{| mount_path := "/outputs"; mount_directory := "outputs";
                      mount_name := "outputs" |}]
  ∧ ∃ w'',
      startup_event w' = (Return tt, w'')
      ∧ os w'' = os w'
      ∧ clock w'' = clock w'
      ∧ background_tasks w'' = background_tasks w'
      ∧ agent_runs w'' = agent_runs w'
      ∧ routes w''
        = routes w ++ [{| mount_path := "/outputs"; mount_directory := "outputs";
                          mount_name := "outputs" |};
                       {| mount_path := "/outputs"; mount_directory := "outputs";
                          mount_name := "outputs" |}].
Proof.
  intros Hrun.
  destruct (startup_event_makes_the_roots w w' Hrun)
    as (_ & Hroot & Hout & Henv & Hroutes & _).
  assert (Os.environ_get (os w') "VECTOR_STORE_PATH" "vector_store"
          = Os.environ_get (os w) "VECTOR_STORE_PATH" "vector_store") as Hsame
    by (unfold Os.environ_get; by rewrite Henv).
  rewrite Hsame. split; [exact Hout|]. split; [exact Hroot|].
  split; [exact Hroutes|].
  exists (with_route outputs_route w').
  split; [|repeat split; simpl; rewrite Hroutes, <- app_assoc; reflexivity].
  unfold startup_event.
  erewrite bind_return;
    [|unfold on_os; rewrite (makedirs_existing _ _ Hout), with_os_same; reflexivity].
  erewrite bind_return;
    [|unfold app_mount; erewrite bind_return; [|unfold gets; reflexivity];
      rewrite Hout; reflexivity].
  erewrite bind_return; [|unfold gets; reflexivity].
  cbn [os with_route]. rewrite Hsame. unfold on_os. cbn [os with_route].
  rewrite (makedirs_existing _ _ Hroot). reflexivity.
Qed.

Lemma endswith_sep_contains (s : string) :
  Py.endswith_sep s = true → contains "/"%char s = true.
Proof.
  induction s as [|c s IH]; [done|]. simpl. destruct s as [|c' s].
  - intros ->. done.
  - intros Hs. rewrite (IH Hs). apply orb_true_r.
Qed.

(** X5. An upload whose document path has a regular file on the way fails:
    [os.makedirs] raises [OSError], and the caller gets it instead of a
    result of [handle_file_upload]. *)
Theorem upload_file_blocked_by_a_file (file : UploadFile) (name : string) (w : World) :
  name ≠ "" →
  let doc_path :=
    Py.os_path_join
      (Py.os_path_join (Os.environ_get (os w) "VECTOR_STORE_PATH" "vector_store") name)
      "docs" in
  contains "000"%char doc_path = false →
  Exists (λ l, is_file (fs (os w)) l = true)
    (visited (Os.origin (os w) doc_path) (split_sep doc_path)) →
  (upload_file file name w).1 = Raise (OSError doc_path).
Proof.
  intros Hname doc_path Hnul Hfile.
  rewrite upload_file_steps by done. fold doc_path.
  erewrite bind_raise; [reflexivity|].
  unfold on_os, Os.makedirs. rewrite Hnul.
  rewrite bool_decide_eq_false_2 by (by apply join_nonempty).
  rewrite (mkdirs_blocked _ _ _ Hfile). reflexivity.
Qed.

(** X6. [upload_file] does not keep a knowledge base under the root: for a
    name [/n] the document path is [/n/docs], whatever the root and the
    working directory are, and the directories are made there, from the
    root of the filesystem, before [handle_file_upload] is called. *)
Theorem upload_file_absolute_name (file : UploadFile) (n : string) (w : World) :
  valid_name n = true →
  let doc_path :=
    Py.os_path_join
      (Py.os_path_join (Os.environ_get (os w) "VECTOR_STORE_PATH" "vector_store")
         ("/" +:+ n))
      "docs" in
  doc_path = "/" +:+ n +:+ "/docs"
  ∧ ∀ o1,
      Os.makedirs (os w) doc_path = (Return tt, o1) →
      is_dir (fs o1) [n; "docs"] = true
      ∧ upload_file file ("/" +:+ n) w
        = (on_os (handle_file_upload file doc_path) ≫= λ result,
           mret (Json 200 result)) (with_os o1 w).
Proof.
  intros Hn doc_path.
  destruct (valid_name_inv n Hn) as (Hsp & Hsep & _).
  assert (doc_path = "/" +:+ n +:+ "/docs") as Hpath.
  { assert (Py.endswith_sep (String "/" n) = false) as He.
    { destruct n as [|c n]; [done|].
      change (Py.endswith_sep (String c n) = false).
      destruct (Py.endswith_sep (String c n)) eqn:He; [|done].
      apply endswith_sep_contains in He. congruence. }
    unfold doc_path.
    change (Py.os_path_join _ ("/" +:+ n)) with (String "/" n).
    unfold Py.os_path_join. rewrite He.
    rewrite (bool_decide_eq_false_2 (String "/" n = "")) by done. reflexivity. }
  split; [exact Hpath|]. intros o1 Hmk. split.
  - destruct (makedirs_returns _ _ _ Hmk) as (_ & Hdirs & _).
    rewrite Hpath in Hdirs.
    assert (split_sep ("/" +:+ n +:+ "/docs") = [""; n; "docs"]) as Hsplit.
    { change ("/" +:+ n +:+ "/docs") with ("" +:+ "/" +:+ (n +:+ "/" +:+ "docs")).
      rewrite !split_sep_app_sep, (split_sep_no_sep n Hsep). reflexivity. }
    rewrite Hsplit in Hdirs. unfold Os.origin in Hdirs. simpl in Hdirs.
    rewrite !Forall_cons in Hdirs. destruct Hdirs as (_ & _ & Hdocs & _).
    change (step [] "") with (@nil string) in Hdocs.
    rewrite (step_named [] n Hsp) in Hdocs.
    by rewrite (step_named _ "docs") in Hdocs.
  - rewrite upload_file_steps by done. fold doc_path.
    erewrite bind_return; [reflexivity|]. unfold on_os. by rewrite Hmk.
Qed.

End Directories.

(** * More about jobs *)

(** The request [r] with another repository and branch. *)
Definition with_repository (repo branch : string) (r : ResearchRequest) : ResearchRequest :=
  {| task := task r;
     report_type := report_type r;
     report_source := report_source r;
     tone := tone r;
     headers := headers r;
     repo_name := repo;
     branch_name := branch;
     knowledge_base := knowledge_base r;
     deep_research_config := deep_research_config r;
     generate_in_background := generate_in_background r |}.

Section Jobs.

Context `{Collaborators}.

Ltac unfold_arguments :=
  unfold run_agent_arguments, configure_deep_research, configure_knowledge_base,
    Tone_lookup, mbind, M_bind, bind, mret, M_ret, ret, raise, gets, on_os,
    Os.environ_set, with_os in *.

Lemma run_agent_arguments_key_error (research_request : ResearchRequest)
    (w w1 : World) (key name : string) :
  run_agent_arguments research_request w = (Raise (KeyError key), w1) →
  knowledge_base research_request = Some name → name ≠ "" →
  environ (os w1) !! "DOC_PATH"
  = Some (Py.os_path_join
            (Py.os_path_join
               (Os.environ_get (os w) "VECTOR_STORE_PATH" "vector_store") name)
            "docs").
Proof.
  intros Hrun Hkb Hname.
  unfold_arguments. unfold Os.environ_get in *. rewrite Hkb in *.
  simpl in *. rewrite (bool_decide_eq_false_2 _ Hname) in Hrun. simpl in Hrun.
  repeat (case_match; simplify_eq/=);
    repeat match goal with
      | Hx : context [<[_:=_]> _ !! _] |- _ => rewrite lookup_insert_ne in Hx by done
      end;
    repeat first [rewrite lookup_insert_eq | rewrite lookup_insert_ne by done];
    congruence.
Qed.

(** X7. A submission that is refused for its tone has already changed the
    environment: when a foreground submission with a knowledge base ends
    in the [KeyError] of an unknown tone, [DOC_PATH] is left set to the
    [docs] directory of that knowledge base. *)
Theorem refused_tone_leaves_the_document_path
    (research_request : ResearchRequest) (w w' : World) (key name : string) :
  generate_in_background research_request = false →
  Tone_getitem (tone research_request) = None →
  knowledge_base research_request = Some name → name ≠ "" →
  generate_report research_request w = (Raise (KeyError key), w') →
  key = tone research_request
  ∧ environ (os w') !! "DOC_PATH"
    = Some (Py.os_path_join
              (Py.os_path_join
                 (Os.environ_get (os w) "VECTOR_STORE_PATH" "vector_store") name)
              "docs")
  ∧ agent_runs w' = agent_runs w.
Proof.
  intros Hbg Htone Hkb Hname Hrun.
  destruct (run_agent_arguments_unknown_tone research_request w Htone)
    as (e & w1 & Hargs & He).
  rewrite (generate_report_foreground_eq _ _ Hbg) in Hrun.
  erewrite bind_raise in Hrun by (by apply write_report_raises_early).
  injection Hrun as -> ->.
  destruct He as [[= ->]|[=]].
  destruct (run_agent_arguments_frame _ _ _ _ Hargs) as (_ & _ & _ & _ & Hr & _).
  split; [done|]. split; [|exact Hr].
  by eapply run_agent_arguments_key_error.
Qed.

(** X8. The tuning dictionary and its defaults: a dictionary that is not
    empty and lacks a key gives the default of that key, 2 for the depth
    and 4 for the breadth; an empty dictionary counts as none, and the two
    variables keep the values they had. *)
Theorem deep_research_defaults (research_request : ResearchRequest)
    (w w1 : World) (args : AgentArgs Tone) (config : gmap string Py.value) :
  run_agent_arguments research_request w = (Return args, w1) →
  deep_research_config research_request = Some config →
  (config ≠ ∅ → config !! "max_iterations" = None →
   environ (os w1) !! "DEEP_RESEARCH_DEPTH" = Some "2")
  ∧ (config ≠ ∅ → config !! "max_search_results_per_query" = None →
     environ (os w1) !! "DEEP_RESEARCH_BREADTH" = Some "4")
  ∧ (config = ∅ →
     environ (os w1) !! "DEEP_RESEARCH_DEPTH" = environ (os w) !! "DEEP_RESEARCH_DEPTH"
     ∧ environ (os w1) !! "DEEP_RESEARCH_BREADTH"
       = environ (os w) !! "DEEP_RESEARCH_BREADTH").
Proof.
  intros Hrun Hcfg. split; [|split].
  - intros Hne Hkey.
    destruct (run_agent_arguments_deep_research _ _ _ _ _ Hrun Hcfg Hne) as [Hd _].
    rewrite Hd. unfold Py.dict_get. by rewrite Hkey.
  - intros Hne Hkey.
    destruct (run_agent_arguments_deep_research _ _ _ _ _ Hrun Hcfg Hne) as [_ Hb].
    rewrite Hb. unfold Py.dict_get. by rewrite Hkey.
  - intros ->. unfold_arguments. rewrite Hcfg in Hrun. simpl in Hrun.
    repeat (case_match; simplify_eq/=);
      split; rewrite ?lookup_insert_ne by done; reflexivity.
Qed.

(** X9. The repository and the branch of a request play no part in the
    job: with other values of [repo_name] and [branch_name],
    [write_report] does the same, and [generate_report] gives the same
    response and leaves the same operating system state. *)
Theorem repository_is_ignored (repo branch : string)
    (research_request : ResearchRequest) (research_id : string) (w : World) :
  write_report (with_repository repo branch research_request) research_id w
  = write_report research_request research_id w
  ∧ (generate_report (with_repository repo branch research_request) w).1
    = (generate_report research_request w).1
  ∧ os (generate_report (with_repository repo branch research_request) w).2
    = os (generate_report research_request w).2.
Proof.
  assert (∀ research_id w,
            write_report (with_repository repo branch research_request) research_id w
            = write_report research_request research_id w) as Hsame
    by (by destruct research_request).
  split; [apply Hsame|].
  destruct (generate_in_background research_request) eqn:Hbg.
  - assert (generate_in_background (with_repository repo branch research_request) = true)
      as Hbg' by exact Hbg.
    rewrite !generate_report_background_eq by done. done.
  - assert (generate_in_background (with_repository repo branch research_request) = false)
      as Hbg' by exact Hbg.
    rewrite !generate_report_foreground_eq by done.
    change (task (with_repository repo branch research_request))
      with (task research_request).
    unfold mbind, M_bind, bind. rewrite Hsame. done.
Qed.

End Jobs.

Section Outcomes.

Context `{Collaborators}.

Import FS.

(** X10. [read_report] does not tell a directory from a file: when
    [outputs/<id>.docx] is a directory, it answers with a [FileResponse]
    for it, not with the message, and sending that response fails. *)
Theorem read_report_on_a_directory
    (research_id : string) (w : World) (entries : gmap string node) :
  let docx_path := Py.os_path_join "outputs" (research_id +:+ ".docx") in
  Os.node_at (os w) docx_path = Some (Dir entries) →
  read_report research_id w = (Return (FileResponse docx_path), w)
  ∧ send (os w) (FileResponse docx_path) = Raise (RuntimeError docx_path).
Proof.
  intros docx_path Hnode. split.
  - unfold read_report. fold docx_path.
    erewrite bind_return; [|unfold gets; reflexivity].
    unfold Os.path_exists. by rewrite Hnode.
  - simpl. by rewrite Hnode.
Qed.

(** X11. [write_report] stops at the first collaborator that raises: the
    exception reaches the caller and the state is the one that this
    collaborator left, so after a failure of [run_agent] nothing is
    rendered, and after a failure of [write_md_to_word] no PDF is made. *)
Theorem write_report_stops_at_a_failure (research_request : ResearchRequest)
    (research_id : string) (w w1 : World) (args : AgentArgs Tone) :
  run_agent_arguments research_request w = (Return args, w1) →
  (∀ e o2,
     run_agent args (os w1) = (Raise e, o2) →
     ∃ w', write_report research_request research_id w = (Raise e, w') ∧ os w' = o2)
  ∧ (∀ report researcher e o2 o3,
       run_agent args (os w1) = (Return (report, researcher), o2) →
       write_md_to_word report research_id o2 = (Raise e, o3) →
       ∃ w', write_report research_request research_id w = (Raise e, w') ∧ os w' = o3)
  ∧ (∀ report researcher docx_path e o2 o3 o4,
       run_agent args (os w1) = (Return (report, researcher), o2) →
       write_md_to_word report research_id o2 = (Return docx_path, o3) →
       write_md_to_pdf report research_id o3 = (Raise e, o4) →
       ∃ w', write_report research_request research_id w = (Raise e, w') ∧ os w' = o4).
Proof.
  intros Hargs. split; [|split].
  - intros e o2 Hagent. unfold write_report.
    erewrite bind_return by exact Hargs.
    erewrite bind_raise; [|unfold call_run_agent; rewrite Hagent; reflexivity].
    by eexists.
  - intros report researcher e o2 o3 Hagent Hword. unfold write_report.
    erewrite bind_return by exact Hargs.
    erewrite bind_return; [|unfold call_run_agent; rewrite Hagent; reflexivity].
    erewrite bind_raise; [|unfold on_os; simpl; rewrite Hword; reflexivity].
    by eexists.
  - intros report researcher docx_path e o2 o3 o4 Hagent Hword Hpdf.
    unfold write_report.
    erewrite bind_return by exact Hargs.
    erewrite bind_return; [|unfold call_run_agent; rewrite Hagent; reflexivity].
    erewrite bind_return; [|unfold on_os; simpl; rewrite Hword; reflexivity].
    erewrite bind_raise; [|unfold on_os; simpl; rewrite Hpdf; reflexivity].
    by eexists.
Qed.

Lemma on_os_frame {A} (f : OS → outcome A * OS) (w w' : World) (r : outcome A) :
  on_os f w = (r, w') →
  clock w' = clock w ∧ background_tasks w' = background_tasks w
  ∧ agent_runs w' = agent_runs w.
Proof.
  unfold on_os. destruct (f (os w)) as [r' o]. by intros [= _ <-].
Qed.

Lemma write_report_frame (research_request : ResearchRequest)
    (research_id : string) (w w' : World) (r : outcome json) :
  write_report research_request research_id w = (r, w') →
  clock w' = clock w ∧ background_tasks w' = background_tasks w
  ∧ (agent_runs w' = agent_runs w ∨ ∃ run, agent_runs w' = run :: agent_runs w).
Proof.
  unfold write_report. intros Hrun.
  apply bind_inv in Hrun as [(args & w1 & Hargs & Hrun)|(e & Hargs & _)].
  2: { destruct (run_agent_arguments_frame _ _ _ _ Hargs) as (_ & _ & ? & ? & ? & _).
       auto. }
  destruct (run_agent_arguments_frame _ _ _ _ Hargs) as (_ & _ & Hc1 & Hq1 & Hr1 & _).
  assert (∀ r2 w2, call_run_agent args w1 = (r2, w2) →
            clock w2 = clock w ∧ background_tasks w2 = background_tasks w
            ∧ ∃ run, agent_runs w2 = run :: agent_runs w) as Hcall.
  { unfold call_run_agent. intros r2 w2.
    destruct (run_agent args (os w1)) as [r' o]. intros [= _ <-]. simpl.
    rewrite Hr1. eauto. }
  apply bind_inv in Hrun as [(info & w2 & Hagent & Hrun)|(e & Hagent & _)].
  2: { destruct (Hcall _ _ Hagent) as (? & ? & ?). auto. }
  destruct (Hcall _ _ Hagent) as (Hc2 & Hq2 & run & Hr2).
  apply bind_inv in Hrun as [(docx & w3 & Hword & Hrun)|(e & Hword & _)].
  2: { destruct (on_os_frame _ _ _ _ Hword) as (-> & -> & ->). eauto. }
  destruct (on_os_frame _ _ _ _ Hword) as (Hc3 & Hq3 & Hr3).
  apply bind_inv in Hrun as [(pdf & w4 & Hpdf & Hrun)|(e & Hpdf & _)].
  2: { destruct (on_os_frame _ _ _ _ Hpdf) as (-> & -> & ->).
       rewrite Hc3, Hq3, Hr3. eauto. }
  destruct (on_os_frame _ _ _ _ Hpdf) as (Hc4 & Hq4 & Hr4).
  assert (w' = w4) as ->.
  { destruct (negb _), info; by injection Hrun as _ <-. }
  rewrite Hc4, Hq4, Hr4, Hc3, Hq3, Hr3. eauto.
Qed.

(** X12. A foreground submission queues nothing, whatever its outcome, and
    [run_agent] is called for it at most once; the clock is not touched. *)
Theorem generate_report_foreground_queues_nothing
    (research_request : ResearchRequest) (w w' : World) (r : outcome response) :
  generate_in_background research_request = false →
  generate_report research_request w = (r, w') →
  background_tasks w' = background_tasks w
  ∧ clock w' = clock w
  ∧ (agent_runs w' = agent_runs w ∨ ∃ run, agent_runs w' = run :: agent_runs w).
Proof.
  intros Hbg Hrun. rewrite (generate_report_foreground_eq _ _ Hbg) in Hrun.
  apply bind_inv in Hrun as [(body & w1 & Hw & Hrun)|(e & Hw & _)].
  - injection Hrun as _ <-.
    destruct (write_report_frame _ _ _ _ _ Hw) as (? & ? & ?). auto.
  - destruct (write_report_frame _ _ _ _ _ Hw) as (? & ? & ?). auto.
Qed.

(** X13. A name that [get_knowledge_bases] lists can be used in a job:
    the path that [write_report] then gives [run_agent] as
    [vector_store_path] is a directory, and [DOC_PATH] is set to the [docs]
    entry of it. *)
Theorem listed_knowledge_base_is_a_directory (research_request : ResearchRequest)
    (w w1 : World) (args : AgentArgs Tone) (directories : list string) (d : string) :
  knowledge_base_directories (os w) = Return directories →
  d ∈ directories → d ≠ "" →
  knowledge_base research_request = Some d →
  run_agent_arguments research_request w = (Return args, w1) →
  ∃ kb_path,
    arg_vector_store_path args = Some kb_path
    ∧ Os.path_isdir (os w) kb_path = true
    ∧ environ (os w1) !! "DOC_PATH" = Some (Py.os_path_join kb_path "docs").
Proof.
  intros Hlist Hd Hne Hkb Hargs.
  destruct (run_agent_arguments_knowledge_base _ _ _ _ _ Hargs Hkb Hne) as [Hpath Hdoc].
  eexists. split; [exact Hpath|]. split; [|exact Hdoc].
  destruct (knowledge_base_directories_spec (os w)) as (directories' & Hlist' & _ & Hin).
  assert (directories' = directories) as -> by congruence.
  apply Hin in Hd as (entries & _ & _ & Hdir). exact Hdir.
Qed.

End Outcomes.

(** * [get_models] *)

Section Models.

Context `{Requests}.

(** X14. [get_models] turns every [RequestException] into a response with
    status 500 and the text of the exception, whichever of the three calls
    raises it: the request, the check of the status or the parsing of the
    body.  It never lets one through. *)
Theorem get_models_answers_request_failures (o : OS) (text : string) :
  let url := Os.environ_get o "OPENAI_BASE_URL" "http://localhost:1234/v1" +:+ "/models" in
  let failed := inr (Json 500 (JObj [("error", JStr text)])) in
  (requests_get url = inl (RequestException text) → get_models o = failed)
  ∧ (∀ response,
       requests_get url = inr response →
       raise_for_status response = Some (RequestException text) →
       get_models o = failed)
  ∧ (∀ response,
       requests_get url = inr response →
       raise_for_status response = None →
       response_json response = inl (RequestException text) →
       get_models o = failed)
  ∧ get_models o ≠ inl (RequestException text).
Proof.
  intros url failed. unfold get_models, fetch_models. fold url.
  split; [|split; [|split]].
  - by intros ->.
  - by intros response -> ->.
  - by intros response -> -> ->.
  - destruct (requests_get url) as [[t|t]|response]; [done..|].
    destruct (raise_for_status response) as [[t|t]|]; [done..|].
    destruct (response_json response) as [[t|t]|models]; [done..|].
    destruct (models_get_data models) as [[t|t]|data] eqn:Hdata; [|done..].
    by destruct models.
Qed.

(** X15. When the model server answers with an object, [get_models]
    answers with status 200 and the value of its ["data"] key under
    ["models"], and with an empty list when the object has no such key;
    when the parsed body is not an object, an exception that is no
    [RequestException] escapes. *)
Theorem get_models_reads_the_data (o : OS) (response : http_response) (models : json) :
  requests_get
    (Os.environ_get o "OPENAI_BASE_URL" "http://localhost:1234/v1" +:+ "/models")
  = inr response →
  raise_for_status response = None →
  response_json response = inr models →
  (∀ fields data,
     models = JObj fields → jget "data" models = Some data →
     get_models o = inr (Json 200 (JObj [("models", data)])))
  ∧ (∀ fields,
       models = JObj fields → jget "data" models = None →
       get_models o = inr (Json 200 (JObj [("models", JList [])])))
  ∧ ((∀ fields, models ≠ JObj fields) →
     ∃ detail, get_models o = inl (OtherException detail)).
Proof.
  intros Hget Hstatus Hjson. unfold get_models, fetch_models.
  rewrite Hget, Hstatus, Hjson. split; [|split].
  - intros fields data -> Hdata. unfold models_get_data. by rewrite Hdata.
  - intros fields -> Hdata. unfold models_get_data. by rewrite Hdata.
  - intros Hother. destruct models; try (by eexists). by destruct (Hother fields).
Qed.

End Models.

(** * More concrete runs *)

Module Examples.

(** The server directory with a document directory [my-docs] that holds a
    file and a directory; with a regular file named [my-docs]; with a
    regular file where the knowledge base ["kb1"] would be; with a directory
    where an artifact would be; and without [outputs]. *)
Definition srv_docs : OS :=
  {| environ := ∅;
     fs := FS.Dir {[ "srv" := FS.Dir {[ "my-docs" :=
             FS.Dir {[ "a.txt" := FS.File "hello" ]} ]} ]};
     cwd := ["srv"] |}.

Definition srv_docs_file : OS :=
  {| environ := ∅;
     fs := FS.Dir {[ "srv" := FS.Dir {[ "my-docs" := FS.File "hello" ]} ]};
     cwd := ["srv"] |}.

Definition srv_kb1_file : OS :=
  {| environ := ∅;
     fs := FS.Dir {[ "srv" := FS.Dir {[ "vector_store" :=
             FS.Dir {[ "kb1" := FS.File "hello" ]} ]} ]};
     cwd := ["srv"] |}.

Definition srv_report_dir : OS :=
  {| environ := ∅;
     fs := FS.Dir {[ "srv" := FS.Dir {[ "outputs" :=
             FS.Dir {[ "task_1000_foo.docx" := FS.Dir ∅ ]} ]} ]};
     cwd := ["srv"] |}.

Definition srv_bare : OS :=
  {| environ := ∅; fs := FS.Dir {[ "srv" := FS.Dir ∅ ]}; cwd := ["srv"] |}.

Definition srv_remote : OS :=
  {| environ := {[ "OPENAI_BASE_URL" := "http://models.example:8000/v1" ]};
     fs := FS.Dir {[ "srv" := FS.Dir ∅ ]};
     cwd := ["srv"] |}.

(** A foreground request with the tone ["Sarcastic"] and the knowledge base
    ["kb1"], and one with a tuning dictionary that gives the depth only. *)
Definition foo_sarcastic_kb1 : ResearchRequest :=
  Model.request "research_report" "Sarcastic" (Some "kb1") false.

Definition foo_deep : ResearchRequest :=
  {| task := "foo";
     report_type := "deep";
     report_source := "web";
     tone := "Objective";
     headers := None;
     repo_name := "";
     branch_name := "";
     knowledge_base := None;
     deep_research_config := Some {[ "max_iterations" := Py.VInt 5 ]};
     generate_in_background := false |}.

(** A model server at the default address that knows one model; every
    other address refuses the connection. *)
Definition local_server : Requests :=
  {| http_response := Z * json;
     requests_get url :=
       if bool_decide (url = "http://localhost:1234/v1/models")
       then inr (200, JObj [("object", JStr "list"); ("data", JList [JStr "llama"])])
       else inl (RequestException "Connection refused");
     raise_for_status response :=
       if bool_decide (400 ≤ response.1) then Some (RequestException "HTTPError") else None;
     response_json response := inr response.2 |}.

End Examples.

Section MoreRuns.

Import FS.

(** The document directory of the server holds one file: [list_files]
    answers with its name. *)
Lemma list_files_lists_the_directory_witness :
  ∃ files,
    list_files (DOC_PATH Examples.srv_docs) (Model.world_at 0 Examples.srv_docs)
    = (Return (Json 200 (JObj [("files", JList (JStr <$> files))])),
       Model.world_at 0 Examples.srv_docs)
    ∧ "a.txt" ∈ files.
Proof.
  destruct (list_files_lists_the_directory (DOC_PATH Examples.srv_docs)
              (Model.world_at 0 Examples.srv_docs)
              {[ "a.txt" := File "hello" ]} eq_refl)
    as (files & Hrun & _ & Hin).
  exists files. split; [exact Hrun|].
  apply Hin. eexists. apply lookup_singleton_eq.
Defined.

(** In the server directory without [my-docs], [list_files] makes it. *)
Lemma list_files_makes_the_directory_witness :
  Os.path_isdir Model.srv "./my-docs" = false
  ∧ (list_files "./my-docs" Model.early).1 = Return (Json 200 (JObj [("files", JList [])]))
  ∧ Os.path_isdir (Os.makedirs Model.srv "./my-docs").2 "./my-docs" = true.
Proof.
  split; [reflexivity|].
  destruct (list_files_makes_the_directory "./my-docs" Model.early
              (Os.makedirs Model.srv "./my-docs").2)
    as (Hrun & Hdir & _).
  - reflexivity.
  - repeat constructor; discriminate.
  - reflexivity.
  - split; [by rewrite Hrun|exact Hdir].
Defined.

(** Where [my-docs] is a regular file, [list_files] raises. *)
Lemma list_files_on_a_regular_file_witness :
  list_files "./my-docs" (Model.world_at 0 Examples.srv_docs_file)
  = (Raise (OSError "./my-docs"), Model.world_at 0 Examples.srv_docs_file).
Proof.
  exact (list_files_on_a_regular_file "./my-docs"
           (Model.world_at 0 Examples.srv_docs_file) "hello" eq_refl).
Defined.

(** Two startups in the server directory: the second changes nothing on
    the filesystem and leaves [/outputs] mounted twice. *)
Lemma startup_event_can_be_repeated_witness :
  let started := (startup_event Model.early).2 in
  let restarted := (startup_event started).2 in
  Os.path_isdir (os Model.early) "vector_store" = false
  ∧ Os.path_isdir (os started) "vector_store" = true
  ∧ (startup_event started).1 = Return tt
  ∧ os restarted = os started
  ∧ length (filter (λ route, mount_path route = "/outputs") (routes started)) = 1%nat
  ∧ length (filter (λ route, mount_path route = "/outputs") (routes restarted)) = 2%nat.
Proof.
  intros started restarted. split; [reflexivity|].
  destruct (startup_event_can_be_repeated Model.early started eq_refl)
    as (_ & Hroot & Hroutes & w'' & Hagain & Hos & _ & _ & _ & Hroutes').
  assert (restarted = w'') as -> by (unfold restarted; by rewrite Hagain).
  split; [exact Hroot|]. split; [by rewrite Hagain|]. split; [exact Hos|].
  rewrite Hroutes, Hroutes'. split; reflexivity.
Defined.

(** An upload to ["kb1"] where [vector_store/kb1] is a regular file. *)
Lemma upload_file_blocked_by_a_file_witness :
  (upload_file Model.notes "kb1" (Model.world_at 0 Examples.srv_kb1_file)).1
  = Raise (OSError "vector_store/kb1/docs").
Proof.
  apply (upload_file_blocked_by_a_file Model.notes "kb1"
           (Model.world_at 0 Examples.srv_kb1_file)).
  - discriminate.
  - reflexivity.
  - apply Exists_exists. exists ["srv"; "vector_store"; "kb1"].
    split; [|reflexivity].
    apply list_elem_of_further. apply list_elem_of_here.
Defined.

(** An upload to the knowledge base ["/kb"] from the server directory. *)
Lemma upload_file_absolute_name_witness :
  Py.os_path_join (Py.os_path_join "vector_store" "/kb") "docs" = "/kb/docs"
  ∧ is_dir (fs (Os.makedirs Model.srv "/kb/docs").2) ["kb"; "docs"] = true
  ∧ is_dir (fs (Os.makedirs Model.srv "/kb/docs").2) ["srv"; "vector_store"] = false.
Proof.
  destruct (upload_file_absolute_name Model.notes "kb" Model.early eq_refl)
    as [Hpath Hmade].
  destruct (Hmade (Os.makedirs Model.srv "/kb/docs").2 eq_refl) as [Hdir _].
  split; [exact Hpath|]. split; [exact Hdir|reflexivity].
Defined.

(** A foreground submission with the tone ["Sarcastic"] and the knowledge
    base ["kb1"]. *)
Lemma refused_tone_leaves_the_document_path_witness :
  let refused := generate_report Examples.foo_sarcastic_kb1 Model.early in
  refused.1 = Raise (KeyError "Sarcastic")
  ∧ environ (os Model.early) !! "DOC_PATH" = None
  ∧ environ (os refused.2) !! "DOC_PATH" = Some "vector_store/kb1/docs".
Proof.
  intros refused. split; [reflexivity|]. split; [reflexivity|].
  destruct (refused_tone_leaves_the_document_path Examples.foo_sarcastic_kb1
              Model.early refused.2 "Sarcastic" "kb1")
    as (_ & Hdoc & _).
  - reflexivity.
  - reflexivity.
  - reflexivity.
  - discriminate.
  - reflexivity.
  - exact Hdoc.
Defined.

(** A job whose tuning dictionary gives the depth only. *)
Lemma deep_research_defaults_witness :
  let configured := (run_agent_arguments Examples.foo_deep Model.early).2 in
  environ (os configured) !! "DEEP_RESEARCH_DEPTH" = Some "5"
  ∧ environ (os configured) !! "DEEP_RESEARCH_BREADTH" = Some "4".
Proof.
  intros configured. split; [reflexivity|].
  pose (args := {| arg_task := "foo";
                   arg_report_type := "deep";
                   arg_report_source := "web";
                   arg_source_urls := [];
                   arg_document_urls := [];
                   arg_tone := Model.Objective;
                   arg_headers := None;
                   arg_query_domains := [];
                   arg_config_path := "";
                   arg_vector_store_path := None;
                   arg_return_researcher := true |} : AgentArgs Tone).
  destruct (deep_research_defaults Examples.foo_deep Model.early configured args
              {[ "max_iterations" := Py.VInt 5 ]} eq_refl eq_refl)
    as (_ & Hbreadth & _).
  apply Hbreadth; [|reflexivity].
  intros Hempty. apply (f_equal (λ m : gmap string Py.value, m !! "max_iterations")) in Hempty.
  discriminate Hempty.
Defined.

(** Where [outputs/task_1000_foo.docx] is a directory. *)
Lemma read_report_on_a_directory_witness :
  read_report "task_1000_foo" (Model.world_at 0 Examples.srv_report_dir)
  = (Return (FileResponse "outputs/task_1000_foo.docx"),
     Model.world_at 0 Examples.srv_report_dir)
  ∧ send Examples.srv_report_dir (FileResponse "outputs/task_1000_foo.docx")
    = Raise (RuntimeError "outputs/task_1000_foo.docx").
Proof.
  exact (read_report_on_a_directory "task_1000_foo"
           (Model.world_at 0 Examples.srv_report_dir) ∅ eq_refl).
Defined.

(** A job in a server directory without [outputs]: the renderer of the
    specification cannot store the report, and [write_report] raises. *)
Lemma write_report_stops_at_a_failure_witness :
  ∃ w',
    write_report Model.foo_foreground "task_1000_foo" (Model.world_at 0 Examples.srv_bare)
    = (Raise (OSError "outputs/task_1000_foo.docx"), w')
    ∧ os w' = Examples.srv_bare.
Proof.
  pose (args := {| arg_task := "foo";
                   arg_report_type := "research_report";
                   arg_report_source := "web";
                   arg_source_urls := [];
                   arg_document_urls := [];
                   arg_tone := Model.Objective;
                   arg_headers := None;
                   arg_query_domains := [];
                   arg_config_path := "";
                   arg_vector_store_path := None;
                   arg_return_researcher := true |} : AgentArgs Tone).
  pose (researcher := {| get_source_urls := ["https://example.org/a"];
                         get_costs := (3 # 100)%Q;
                         visited_urls := {["https://example.org/a"]};
                         get_research_images := [] |}).
  destruct (write_report_stops_at_a_failure Model.foo_foreground "task_1000_foo"
              (Model.world_at 0 Examples.srv_bare) (Model.world_at 0 Examples.srv_bare)
              args eq_refl) as (_ & Hword & _).
  exact (Hword "Report on foo" researcher (OSError "outputs/task_1000_foo.docx")
           Examples.srv_bare Examples.srv_bare eq_refl eq_refl).
Defined.

(** A foreground submission of [foo]: nothing is queued and [run_agent]
    has been called once. *)
Lemma generate_report_foreground_queues_nothing_witness :
  let served := generate_report Model.foo_foreground Model.early in
  background_tasks served.2 = [] ∧ length (agent_runs served.2) = 1%nat.
Proof.
  intros served.
  destruct (generate_report_foreground_queues_nothing Model.foo_foreground
              Model.early served.2 served.1 eq_refl eq_refl)
    as (Hqueue & _ & _).
  split; [exact Hqueue|reflexivity].
Defined.

(** A job with the listed knowledge base ["kb1"]. *)
Lemma listed_knowledge_base_is_a_directory_witness :
  ∃ kb_path,
    Os.path_isdir Model.srv_kb1 kb_path = true
    ∧ environ (os (run_agent_arguments Model.foo_kb1 (Model.world_at 0 Model.srv_kb1)).2)
        !! "DOC_PATH"
      = Some (Py.os_path_join kb_path "docs").
Proof.
  pose (args := {| arg_task := "foo";
                   arg_report_type := "research_report";
                   arg_report_source := "web";
                   arg_source_urls := [];
                   arg_document_urls := [];
                   arg_tone := Model.Objective;
                   arg_headers := None;
                   arg_query_domains := [];
                   arg_config_path := "";
                   arg_vector_store_path := Some "vector_store/kb1";
                   arg_return_researcher := true |} : AgentArgs Tone).
  destruct (listed_knowledge_base_is_a_directory Model.foo_kb1
              (Model.world_at 0 Model.srv_kb1)
              (run_agent_arguments Model.foo_kb1 (Model.world_at 0 Model.srv_kb1)).2
              args ["kb1"] "kb1")
    as (kb_path & _ & Hdir & Hdoc).
  - reflexivity.
  - apply list_elem_of_here.
  - discriminate.
  - reflexivity.
  - reflexivity.
  - exists kb_path. split; [exact Hdir|exact Hdoc].
Defined.

(** The model server is asked at an address where nothing listens. *)
Lemma get_models_answers_request_failures_witness :
  @get_models Examples.local_server Examples.srv_remote
  = inr (Json 500 (JObj [("error", JStr "Connection refused")])).
Proof.
  destruct (@get_models_answers_request_failures Examples.local_server
              Examples.srv_remote "Connection refused") as [Hrefused _].
  apply Hrefused. reflexivity.
Defined.

(** The model server at the default address answers with its list. *)
Lemma get_models_reads_the_data_witness :
  @get_models Examples.local_server Model.srv
  = inr (Json 200 (JObj [("models", JList [JStr "llama"])])).
Proof.
  destruct (@get_models_reads_the_data Examples.local_server Model.srv
              (200, JObj [("object", JStr "list"); ("data", JList [JStr "llama"])])
              (JObj [("object", JStr "list"); ("data", JList [JStr "llama"])])
              eq_refl eq_refl eq_refl) as [Hdata _].
  apply (Hdata [("object", JStr "list"); ("data", JList [JStr "llama"])]); reflexivity.
Defined.

End MoreRuns.
